(** * Task orchestration of the distributed learning simulation library

    A shallow embedding of [simulation_lib/training.py]: the server and
    worker runners, the worker group launcher, the process-wide task
    registries ([tasks], [task_results]), the training entry point [train]
    and the result collector [get_training_result].

    Python dictionaries are finite maps ([gmap]); the iteration order of a
    dictionary only matters where the code overwrites keys, which happens in
    the merge of the pool's results, modelled as a list in iteration order.
    Exceptions are an error monad; the registries are an explicit state that
    keeps whatever was mutated before an exception was raised. *)

From Stdlib Require Import ZArith Floats.
From stdpp Require Import gmap strings list fin_maps sorting.

Set Warnings "-inexact-float".
Local Open Scope Z_scope.

(** ** Exceptions and results *)

Inductive exn : Type :=
  | KeyError
  | AssertionError
  | AttributeError
  | Upstream (msg : string).

Inductive result (A : Type) : Type :=
  | Return (a : A)
  | Raise (e : exn).
Arguments Return {A} a.
Arguments Raise {A} e.

Definition rbind {A B} (r : result A) (k : A → result B) : result B :=
  match r with
  | Return a => k a
  | Raise e => Raise e
  end.

Declare Scope py_scope.
Delimit Scope py_scope with py.
Notation "'do' x <- r ; k" := (rbind r (λ x, k))
  (at level 10, x name, r at level 100, k at level 200) : py_scope.
Local Open Scope py_scope.

(** [d[k]]: subscription of a dictionary raises [KeyError] on a missing key. *)
Definition getitem `{Countable K} {A} (d : gmap K A) (k : K) : result A :=
  match d !! k with
  | Some a => Return a
  | None => Raise KeyError
  end.

(** [d |= upd]: in-place union, the right operand wins on common keys. *)
Definition dict_ior `{Countable K} {A} (d upd : gmap K A) : gmap K A :=
  upd ∪ d.

(** A [for] loop over a list whose body may raise. *)
Fixpoint foldM {A B} (f : B → A → result B) (b : B) (l : list A) : result B :=
  match l with
  | [] => Return b
  | x :: l' => do b' <- f b x; foldM f b' l'
  end.

(** [out = {}; for k, x in pairs: out[k] = g(k, x)]. *)
Definition for_pairs `{Countable K} {A B} (g : K → A → result B)
    (pairs : list (K * A)) : result (gmap K B) :=
  foldM (λ out '(k, x), do y <- g k x; Return (<[k := y]> out)) ∅ pairs.

(** [out = {}; for k, x in d.items(): out[k] = g(k, x)]. *)
Definition for_items `{Countable K} {A B} (g : K → A → result B)
    (d : gmap K A) : result (gmap K B) :=
  for_pairs g (map_to_list d).

(** The value of a result, if it is one. *)
Definition to_option {A} (r : result A) : option A :=
  match r with
  | Return a => Some a
  | Raise _ => None
  end.

(** [range(n)]: empty when [n <= 0]. *)
Definition range (n : Z) : list Z := seqZ 0 n.

(** ** Data model *)

(** Handle of an executor pool (object identity). *)
Definition pool : Type := nat.

(** What [isinstance(context, FederatedLearningContext)] distinguishes. *)
Inductive context : Type :=
  | FederatedLearningContext (executor_pool : pool)
  | OtherObject.

Definition isinstance_FederatedLearningContext (c : context) : bool :=
  match c with
  | FederatedLearningContext _ => true
  | OtherObject => false
  end.

(** The two functions of this module that are handed to [context.submit]. *)
Inductive callable : Type :=
  | fn_start_server
  | fn_run_worker.

(** The interface of the run configuration used by this module. *)
Class ConfigOps (Config : Type) : Type := {
  worker_number : Config → Z;
  log_file : Config → string;
  reset_session : Config → Config
}.

Section Orchestration.

Context {Pid : Type} `{Countable Pid}.
Context (Pid_le : relation Pid) `{!RelDecision Pid_le}.
Context {V : Type}.
Context {Config : Type} `{!ConfigOps Config}.

(** A metric value of a result fragment: an opaque value, or a table
    [round_number -> worker_slot_index -> value] (the shape the code expects
    under the key ["sv"]). *)
Inductive metric : Type :=
  | Scalar (v : V)
  | Table (t : gmap Z (gmap Z V)).

(** Result fragment: metric name to metric value. *)
Local Abbreviation fragment := (gmap string metric).

(** A value of the final stats: a metric copied through, or the attribution
    table rebuilt over participant identifiers. *)
Inductive stat : Type :=
  | Copied (m : metric)
  | Remapped (t : gmap Z (gmap Pid V)).

(** The stats mapping: metric name to stats value. *)
Local Abbreviation stats := (gmap string stat).

(** *** Server side *)

Record Algorithm : Type := {
  (** [None]: the algorithm object has no attribute [shapley_values]. *)
  shapley_values : option metric
}.

Record ServerState : Type := {
  algorithm : Algorithm;
  performance_stat : metric
}.

(** A server object: its state and its blocking [start] method. *)
Record Server : Type := {
  server_state : ServerState;
  start : ServerState → result ServerState
}.

(** [server_config]: a dictionary that may hold a ["constructor"]. *)
Record ServerConfig : Type := {
  constructor : option (context → result Server)
}.

Definition hasattr_shapley_values (a : Algorithm) : bool :=
  bool_decide (is_Some (shapley_values a)).

Definition start_server (ctx : context) (server_config : ServerConfig)
    : result fragment :=
  do ctor <- match constructor server_config with
             | Some c => Return c
             | None => Raise KeyError
             end;
  do server <- ctor ctx;
  do st <- start server (server_state server);
  let res : fragment := ∅ in
  let res :=
    match shapley_values (algorithm st) with
    | Some sv => <["sv" := sv]> res
    | None => res
    end in
  let res := dict_ior res {["performance" := performance_stat st]} in
  Return res.

(** *** Worker side *)

(** A worker object: only its blocking [start] method is used. *)
Record Worker : Type := {
  worker_start : result unit
}.

(** A worker configuration: the keyword arguments of one [run_worker] call
    (the context is supplied by [submit]). *)
Record WorkerConfig : Type := {
  worker_constructor : context → result Worker
}.

Definition run_worker (ctor : context → result Worker) (ctx : context)
    : result unit :=
  do worker <- ctor ctx;
  worker_start worker.

(** *** The process-wide state *)

(** A task record as [train], the only writer of [tasks], builds it:
    [practitioner_ids] is always a set. *)
Record task : Type := {
  process_pool : pool;
  practitioner_ids : gset Pid;
  config : Config
}.

(** The keyword arguments given to [context.submit]: shared by all the
    callables ([server_config=...]) or one per callable ([kwargs_list=...]). *)
Inductive submit_kwargs : Type :=
  | SharedKwargs (server_config : ServerConfig)
  | KwargsList (kwargs_list : list WorkerConfig).

(** Calls into the external collaborators, in program order. *)
Inductive event : Type :=
  | ApplyGlobalConfig (c : Config)
  | AddFileHandler (path : string)
  | Submit (ctx : context) (funs : list callable) (kw : submit_kwargs)
  | WaitResults (p : pool) (timeout : option float)
  | Shutdown (p : pool) (wait : option bool).

Record world : Type := {
  tasks : gmap Z task;
  task_results : gmap Z fragment;
  trace : list event
}.

(** Stateful code that may raise: the state reached is kept on both exits. *)
Definition M (A : Type) : Type := world → world * result A.

Definition pure {A} (a : A) : M A := λ w, (w, Return a).

Definition raise {A} (e : exn) : M A := λ w, (w, Raise e).

(** A computation without effects on the state. *)
Definition lift {A} (r : result A) : M A := λ w, (w, r).

Definition bind {A B} (c : M A) (k : A → M B) : M B := λ w,
  match c w with
  | (w', Return a) => k a w'
  | (w', Raise e) => (w', Raise e)
  end.

Definition emit (ev : event) : M unit := λ w,
  ({| tasks := tasks w; task_results := task_results w;
      trace := trace w ++ [ev] |}, Return tt).

Definition assert (b : bool) : M unit :=
  if b then pure tt else raise AssertionError.

Definition set_tasks (f : gmap Z task → gmap Z task) : M unit := λ w,
  ({| tasks := f (tasks w); task_results := task_results w;
      trace := trace w |}, Return tt).

Definition set_task_results (f : gmap Z fragment → gmap Z fragment)
    : M unit := λ w,
  ({| tasks := tasks w; task_results := f (task_results w);
      trace := trace w |}, Return tt).

(** A [for] loop over a list, run for its effects. *)
Fixpoint for_each {A} (body : A → M unit) (l : list A) : M unit :=
  match l with
  | [] => pure tt
  | x :: l' => bind (body x) (λ _, for_each body l')
  end.

Notation "'let*' x := c 'in' k" := (bind c (λ x, k))
  (at level 10, x name, c at level 100, k at level 200,
   format "'let*'  x  :=  c  'in'  '//' k").
Notation "c ;; k" := (bind c (λ _, k))
  (at level 100, k at level 200, right associativity,
   format "c  ;;  '//' k").

(** *** Worker group launcher *)

(** The list [worker_kwargs] the source also builds is never read: the
    configurations themselves are passed as [kwargs_list]. *)
Definition start_workers (ctx : context) (worker_configs : list WorkerConfig)
    : M unit :=
  assert (isinstance_FederatedLearningContext ctx) ;;
  assert (bool_decide (worker_configs ≠ [])) ;;
  let worker_funs : list callable :=
    foldl (λ funs _, funs ++ [fn_run_worker]) [] worker_configs in
  emit (Submit ctx worker_funs (KwargsList worker_configs)).

(** *** Training entry point *)

Record Practitioner : Type := {
  practitioner_id : Pid
}.

(** The dictionary returned by [get_worker_config]: each of the keys
    ["context"], ["server"] and ["worker"] may be missing. *)
Record worker_config_dict : Type := {
  wc_context : option context;
  wc_server : option ServerConfig;
  wc_worker : option (list (list WorkerConfig))
}.

(** What the operating system and the random source answer to one call of
    [train]: [uuid.uuid4().int] and [os.getpid()]. *)
Record process_env : Type := {
  uuid4_int : Z;
  getpid : Z
}.

(** [get_worker_config] is defined in [algorithm_factory], outside this
    module: any function of the three arguments. *)
Context (get_worker_config :
  Config → option Z → option (list Practitioner) → worker_config_dict).

(** [context.executor_pool]. *)
Definition get_executor_pool (c : context) : result pool :=
  match c with
  | FederatedLearningContext executor_pool => Return executor_pool
  | OtherObject => Raise AttributeError
  end.

(** The part of [train] both modes share: from the call of
    [get_worker_config] to the loop over the worker batches. It answers the
    context popped from the derived configuration. *)
Definition submit_run (config : Config) (task_id : option Z)
    (practitioners : option (list Practitioner)) : M context :=
  let worker_config := get_worker_config config task_id practitioners in
  let* ctx :=
    match wc_context worker_config with
    | Some c => pure c
    | None => raise KeyError
    end in
  assert (isinstance_FederatedLearningContext ctx) ;;
  let* server_config :=
    match wc_server worker_config with
    | Some sc => pure sc
    | None => raise AssertionError
    end in
  emit (Submit ctx [fn_start_server] (SharedKwargs server_config)) ;;
  let* batches :=
    match wc_worker worker_config with
    | Some bs => pure bs
    | None => raise KeyError
    end in
  for_each (λ worker_configs, start_workers ctx worker_configs) batches ;;
  pure ctx.

(** The two tests of [practitioners is None] are one [match]: the variable
    is not assigned in between. Deep copies are the identity on immutable
    values. *)
Definition train (env : process_env) (cfg : Config)
    (practitioners : option (list Practitioner)) : M (option Z) :=
  let config := reset_session cfg in
  emit (ApplyGlobalConfig config) ;;
  match practitioners with
  | None =>
    emit (AddFileHandler (log_file config)) ;;
    let* ctx := submit_run config None None in
    let* executor_pool := lift (get_executor_pool ctx) in
    emit (WaitResults executor_pool None) ;;
    emit (Shutdown executor_pool (Some true)) ;;
    pure None
  | Some ps =>
    let task_id := uuid4_int env + getpid env in
    let* ctx := submit_run config (Some task_id) (Some ps) in
    let* executor_pool := lift (get_executor_pool ctx) in
    set_tasks (insert task_id
      {| process_pool := executor_pool;
         practitioner_ids := list_to_set (practitioner_id <$> ps);
         config := config |}) ;;
    set_task_results (insert task_id ∅) ;;
    pure (Some task_id)
  end.

(** *** Result collector *)

(** [sorted(practitioner_ids)]. *)
Definition sorted (ids : gset Pid) : list Pid :=
  merge_sort Pid_le (elements ids).

(** The innermost loop: one round's table rebuilt over the participant
    identifiers paired with [range(config.worker_number)]. *)
Definition remap_round (ids : gset Pid) (n : Z) (tmp_sv_dict : gmap Z V)
    : result (gmap Pid V) :=
  for_pairs (λ _ worker_id, getitem tmp_sv_dict worker_id)
    (zip (sorted ids) (range n)).

(** The body of the loop over the accumulated fragment. *)
Definition post_process (ids : gset Pid) (n : Z) (k : string) (v : metric)
    : result stat :=
  if bool_decide (k ≠ "sv") then Return (Copied v)
  else
    match v with
    | Table t =>
      do sv_dict <- for_items (λ _ tmp_sv_dict, remap_round ids n tmp_sv_dict) t;
      Return (Remapped sv_dict)
    | Scalar _ => Raise AttributeError
    end.

(** [task_results[task_id] |= result]. *)
Definition merge_result (task_id : Z) (r : fragment) : M unit :=
  let* acc := (λ w, (w, getitem (task_results w) task_id)) in
  set_task_results (insert task_id (dict_ior acc r)).

(** [d.pop(k)]: raises [KeyError] when the key is missing. *)
Definition pop `{Countable K} {A} (k : K) (d : gmap K A) : result (gmap K A) :=
  match d !! k with
  | Some _ => Return (delete k d)
  | None => Raise KeyError
  end.

(** [results] and [not_done] are what [process_pool.wait_results] answers
    to this call: the completed results in iteration order ([None] for a
    unit that returned nothing) and whether work remains. *)
Definition get_training_result (task_id : Z) (timeout : option float)
    (results : list (option fragment)) (not_done : bool)
    : M (option stats) :=
  let* task := (λ w, (w, getitem (tasks w) task_id)) in
  let process_pool := process_pool task in
  emit (WaitResults process_pool timeout) ;;
  for_each (λ result,
    match result with
    | Some r => merge_result task_id r
    | None => pure tt
    end) results ;;
  if not_done then pure None
  else
    emit (Shutdown process_pool None) ;;
    (let* tasks' := (λ w, (w, pop task_id (tasks w))) in
     set_tasks (λ _, tasks')) ;;
    (* [assert practitioner_ids is not None] holds by the type of [task] *)
    let practitioner_ids := practitioner_ids task in
    let config := config task in
    let* acc := (λ w, (w, getitem (task_results w) task_id)) in
    let* stats :=
      lift (for_items (post_process practitioner_ids (worker_number config))
              acc) in
    (let* task_results' := (λ w, (w, pop task_id (task_results w))) in
     set_task_results (λ _, task_results')) ;;
    pure (Some stats).

(** ** Vocabulary of the specification *)

(** The 0-based rank of [pid] among [ids]: how many identifiers are strictly
    smaller. *)
Definition rank (ids : gset Pid) (pid : Pid) : nat :=
  length (filter (λ q, strict Pid_le q pid) (elements ids)).

(** The accumulator after the fragments of one poll were merged into it. *)
Definition merged (acc : fragment) (results : list (option fragment))
    : fragment :=
  foldl (λ a r, match r with Some f => dict_ior a f | None => a end)
    acc results.

(** [train] registered the task: it is in both registries. *)
Definition registered (w : world) (task_id : Z) : Prop :=
  is_Some (tasks w !! task_id) ∧ is_Some (task_results w !! task_id).

(** How many identifiers the remap pairs: [min(worker_number, |ids|)],
    none when [worker_number] is negative. *)
Definition paired (ids : gset Pid) (n : Z) : nat :=
  Z.to_nat (Z.min n (Z.of_nat (size ids))).

(** One round's table holds every slot index the remap reads. *)
Definition slots_present (ids : gset Pid) (n : Z) (row : gmap Z V) : Prop :=
  ∀ i : nat, (i < paired ids n)%nat → is_Some (row !! Z.of_nat i).

(** The accumulated fragment can be post-processed: its ["sv"] entry, when
    there is one, is a table whose rounds hold every paired slot. *)
Definition remappable (ids : gset Pid) (n : Z) (acc : fragment) : Prop :=
  ∀ v, acc !! "sv" = Some v →
    ∃ t, v = Table t ∧ ∀ r row, t !! r = Some row → slots_present ids n row.

(** The callables an event hands to a context, in order. *)
Definition submissions (ev : event) : list (context * callable) :=
  match ev with
  | Submit ctx funs _ => (λ f, (ctx, f)) <$> funs
  | _ => []
  end.

(** Everything a trace submitted, in order. *)
Definition submitted (tr : list event) : list (context * callable) :=
  concat (submissions <$> tr).

(** The task identifiers among the answers of a sequence of calls. *)
Definition minted (answers : list (result (option Z))) : list Z :=
  omap (λ r, match r with Return (Some i) => Some i | _ => None end) answers.

(** Modelled from the spec: [context.submit] is not part of this module;
    it schedules the i-th callable with the i-th entry of [kwargs_list], or
    every callable with the shared keyword arguments. *)
Definition invocations (ev : event)
    : list (callable * (ServerConfig + WorkerConfig)) :=
  match ev with
  | Submit _ funs (SharedKwargs sc) => (λ f, (f, inl sc)) <$> funs
  | Submit _ funs (KwargsList l) => zip funs (inr <$> l)
  | _ => []
  end.

(** Modelled from the spec: [get_worker_config] is not part of this module;
    it answers a mapping with an execution context under ["context"], a
    server configuration under ["server"] and the worker batches under
    ["worker"], each batch a non-empty list. *)
Definition derived_ok (wc : worker_config_dict) (p : pool)
    (sc : ServerConfig) (batches : list (list WorkerConfig)) : Prop :=
  wc_context wc = Some (FederatedLearningContext p) ∧
  wc_server wc = Some sc ∧
  wc_worker wc = Some batches ∧
  Forall (λ b, b ≠ []) batches.

(** A sequence of asynchronous [train] calls in one process, each with the
    answers of its own environment; the returned task identifiers. *)
Fixpoint train_all
    (calls : list (process_env * Config * list Practitioner)) (w : world)
    : world * list (result (option Z)) :=
  match calls with
  | [] => (w, [])
  | (env, cfg, ps) :: calls' =>
    let '(w', r) := train env cfg (Some ps) w in
    let '(w'', rs) := train_all calls' w' in
    (w'', r :: rs)
  end.

End Orchestration.

(** ** A concrete run

    Participant identifiers are strings ordered as Python orders them
    (lexicographically by code point), metric values are Python numbers. *)

Inductive pynum : Type :=
  | PyInt (z : Z)
  | PyFloat (f : float).

Record SimpleConfig : Type := {
  cfg_worker_number : Z;
  cfg_log_file : string;
  cfg_session : option Z
}.

#[export] Instance SimpleConfig_ops : ConfigOps SimpleConfig := {
  worker_number := cfg_worker_number;
  log_file := cfg_log_file;
  reset_session c :=
    {| cfg_worker_number := cfg_worker_number c;
       cfg_log_file := cfg_log_file c;
       cfg_session := None |}
}.

Definition empty_world : @world string _ _ pynum SimpleConfig :=
  {| tasks := ∅; task_results := ∅; trace := [] |}.

Definition demo_config (n : Z) : SimpleConfig :=
  {| cfg_worker_number := n; cfg_log_file := "run.log";
     cfg_session := Some 41 |}.

Definition demo_practitioners : list (@Practitioner string) :=
  [ {| practitioner_id := "p3" |}; {| practitioner_id := "p1" |};
    {| practitioner_id := "p2" |} ].

Definition demo_sv : gmap Z (gmap Z pynum) :=
  {[ 0 := {[ 0 := PyFloat 0.1; 1 := PyFloat 0.2; 2 := PyFloat 0.3 ]} ]}.

(** A server whose run ends with the given performance and, when [sv] is
    given, with an algorithm that exposes [shapley_values]. *)
Definition demo_server (sv : option (@metric pynum)) (perf : @metric pynum)
    : @Server pynum :=
  {| server_state :=
       {| algorithm := {| shapley_values := None |};
          performance_stat := Scalar (PyFloat 0) |};
     start := λ _,
       Return {| algorithm := {| shapley_values := sv |};
                 performance_stat := perf |} |}.

Definition demo_server_config (sv : option (@metric pynum))
    : @ServerConfig pynum :=
  {| constructor := Some (λ _, Return (demo_server sv (Scalar (PyFloat 0.9)))) |}.

Definition demo_worker_config : WorkerConfig :=
  {| worker_constructor := λ _, Return {| worker_start := Return tt |} |}.

Definition demo_get_worker_config (sv : option (@metric pynum))
    (c : SimpleConfig) (task_id : option Z)
    (ps : option (list (@Practitioner string))) : @worker_config_dict pynum :=
  {| wc_context := Some (FederatedLearningContext 0%nat);
     wc_server := Some (demo_server_config sv);
     wc_worker :=
       Some [replicate (Z.to_nat (worker_number c)) demo_worker_config] |}.

Definition demo_env : process_env := {| uuid4_int := 1000; getpid := 7 |}.

(** The fragment of the end-to-end scenario and the stats expected of it. *)
Definition demo_fragment : gmap string (@metric pynum) :=
  {[ "performance" := Scalar (PyFloat 0.9); "sv" := Table demo_sv ]}.

Definition demo_stats : gmap string (@stat string _ _ pynum) :=
  {[ "performance" := Copied (Scalar (PyFloat 0.9));
     "sv" := Remapped
       {[ 0 := {[ "p1" := PyFloat 0.1; "p2" := PyFloat 0.2;
                  "p3" := PyFloat 0.3 ]} ]} ]}.

(** A fragment whose only round lacks slot 2. *)
Definition short_fragment : gmap string (@metric pynum) :=
  {[ "performance" := Scalar (PyFloat 0.9);
     "sv" := Table {[ 0 := {[ 0 := PyFloat 0.1; 1 := PyFloat 0.2 ]} ]} ]}.

Definition fragment_a : gmap string (@metric pynum) :=
  {[ "a" := Scalar (PyInt 1) ]}.

Definition fragment_ab : gmap string (@metric pynum) :=
  {[ "a" := Scalar (PyInt 2); "b" := Scalar (PyInt 3) ]}.

(** The record [train] stores for the three participants. *)
Definition demo_task (n : Z) : @task string _ _ SimpleConfig :=
  {| process_pool := 0%nat;
     practitioner_ids := {[ "p3"; "p1"; "p2" ]};
     config := reset_session (demo_config n) |}.

(** The state after an asynchronous [train] for the three participants
    with [worker_number = n]; the task identifier is [1007]. *)
Definition demo_world (n : Z) : @world string _ _ pynum SimpleConfig :=
  (train (demo_get_worker_config (Some (Table demo_sv))) demo_env
     (demo_config n) (Some demo_practitioners) empty_world).1.



(** ** More vocabulary: the exact calls of a run *)

Section RunEvents.

Context {Pid : Type} `{Countable Pid}.
Context {V : Type}.
Context {Config : Type} `{!ConfigOps Config}.

(** One [submit] call per worker batch, in the order of the batches. *)
Definition batch_events (ctx : context)
    (batches : list (list (@WorkerConfig)))
    : list (@event V Config) :=
  (λ b, Submit ctx (replicate (length b) fn_run_worker) (KwargsList b))
    <$> batches.

(** The events of the part of [train] both modes share, when nothing
    raises. *)
Definition run_events (ctx : context) (sc : @ServerConfig V)
    (batches : list (list (@WorkerConfig)))
    : list (@event V Config) :=
  Submit ctx [fn_start_server] (SharedKwargs sc) :: batch_events ctx batches.

(** What [train] does before it derives the worker configuration: the
    global configuration is applied, and in synchronous mode the log file is
    attached. *)
Definition prologue (cfg : Config)
    (practitioners : option (list (@Practitioner Pid)))
    : list (@event V Config) :=
  ApplyGlobalConfig (reset_session cfg)
  :: match practitioners with
     | None => [AddFileHandler (log_file (reset_session cfg))]
     | Some _ => []
     end.

(** The mapping one call of [train] obtains from [get_worker_config]: the
    task identifier is minted only in asynchronous mode. *)
Definition derived_config
    (get_worker_config :
       Config → option Z → option (list (@Practitioner Pid)) →
       @worker_config_dict V)
    (env : process_env) (cfg : Config)
    (practitioners : option (list (@Practitioner Pid)))
    : @worker_config_dict V :=
  get_worker_config (reset_session cfg)
    match practitioners with
    | None => None
    | Some _ => Some (uuid4_int env + getpid env)
    end
    practitioners.

(** The world after some more events, the registries untouched. *)
Definition after_events (w : @world Pid _ _ V Config)
    (new : list (@event V Config)) : @world Pid _ _ V Config :=
  {| tasks := tasks w; task_results := task_results w;
     trace := trace w ++ new |}.

End RunEvents.

(** ** More of the concrete run *)

(** A second process environment, and the state after two asynchronous
    runs: the task identifiers are [1007] and [2007]. *)
Definition demo_env_2 : process_env := {| uuid4_int := 2000; getpid := 7 |}.

Definition demo_world_two : @world string _ _ pynum SimpleConfig :=
  (train (demo_get_worker_config None) demo_env_2 (demo_config 3)
     (Some demo_practitioners) (demo_world 3)).1.

(** A derived configuration without the ["context"] key. *)
Definition demo_no_context (c : SimpleConfig) (task_id : option Z)
    (ps : option (list (@Practitioner string))) : @worker_config_dict pynum :=
  {| wc_context := None; wc_server := None; wc_worker := None |}.

(** The fragment of a server without attribution values. *)
Definition performance_fragment : gmap string (@metric pynum) :=
  {[ "performance" := Scalar (PyFloat 0.9) ]}.

(** * Optimizer utilities ([util/model.py]) *)

Module model.

(** The exceptions of this module: its own [assert], the subscription of
    an empty list, and whatever an external method raises. *)
Inductive exception : Type :=
  | AssertionError
  | IndexError
  | External (msg : string).

Inductive result (A : Type) : Type :=
  | Return (a : A)
  | Raise (e : exception).
Arguments Return {A} a.
Arguments Raise {A} e.

(** [k.startswith(s)] read the other way round: [k] is a prefix of [s]. *)
Fixpoint starts_with (k s : string) : bool :=
  match k, s with
  | EmptyString, _ => true
  | String a k', String b s' => bool_decide (a = b) && starts_with k' s'
  | String _ _, EmptyString => false
  end.

(** [k in s] on strings: [k] occurs in [s] as a contiguous substring. *)
Fixpoint str_in (k s : string) : bool :=
  starts_with k s ||
  match s with
  | EmptyString => false
  | String _ s' => str_in k s'
  end.

Section Optimizer.

(** The values a parameter group holds (the parameters under ["params"],
    hyper-parameter values under the other keys), the keys and values of
    [optimizer.state], the model and the parameter dictionary. *)
Context {PV : Type}.
Context {PK : Type} `{Countable PK} {PS : Type}.
Context {Model : Type}.
Context {TensorDict : Type}.

Record Optimizer : Type := {
  param_groups : list (gmap string PV);
  state : gmap PK PS
}.

(** A trainer: the optimizer [get_optimizer()] answers, and the model. *)
Record Trainer : Type := {
  optimizer : Optimizer;
  model : Model
}.

(** Code that mutates an object of type [S] and may raise: the state
    reached is kept on both exits. *)
Definition M (S A : Type) : Type := S → S * result A.

Definition pure {S A} (a : A) : M S A := λ s, (s, Return a).

Definition raise {S A} (e : exception) : M S A := λ s, (s, Raise e).

Definition bind {S A B} (c : M S A) (k : A → M S B) : M S B := λ s,
  match c s with
  | (s', Return a) => k a s'
  | (s', Raise e) => (s', Raise e)
  end.

Definition assert {S} (b : bool) : M S unit :=
  if b then pure tt else raise AssertionError.

Fixpoint for_each {S A} (body : A → M S unit) (l : list A) : M S unit :=
  match l with
  | [] => pure tt
  | x :: l' => bind (body x) (λ _, for_each body l')
  end.

(** A method of the model run on the trainer's model. *)
Definition on_model (c : M Model unit) : M Trainer unit := λ tr,
  let '(m, r) := c (model tr) in
  ({| optimizer := optimizer tr; model := m |}, r).

(** A method of the optimizer run on the trainer's optimizer. *)
Definition on_optimizer {A} (c : M Optimizer A) : M Trainer A := λ tr,
  let '(o, r) := c (optimizer tr) in
  ({| optimizer := o; model := model tr |}, r).

Notation "'let*' x := c 'in' k" := (bind c (λ x, k))
  (at level 10, x name, c at level 100, k at level 200,
   format "'let*'  x  :=  c  'in'  '//' k").
Notation "c ;; k" := (bind c (λ _, k))
  (at level 100, k at level 200, right associativity,
   format "c  ;;  '//' k").

(** What one step of the loop over the old group does to the first
    group. *)
Definition reuse (g : gmap string PV) (kv : string * PV) : gmap string PV :=
  if negb (str_in kv.1 "params") then <[kv.1 := kv.2]> g else g.

(** The external collaborators: [model.parameters()], the optimizer's
    [add_param_group], [model_util.load_parameter_dict],
    [trainer.load_parameter_dict] and [model_util.disable_running_stats]. *)
Context (parameters : Model → PV).
Context (add_param_group : gmap string PV → M Optimizer unit).
Context (model_util_load_parameter_dict : TensorDict → M Model unit).
Context (trainer_load_parameter_dict : TensorDict → M Trainer unit).
Context (disable_running_stats : M Model unit).

(** [optimizer.param_groups.clear()]. *)
Definition clear_param_groups : M Optimizer unit := λ o,
  ({| param_groups := []; state := state o |}, Return tt).

(** [optimizer.state.clear()]. *)
Definition clear_state : M Optimizer unit := λ o,
  ({| param_groups := param_groups o; state := ∅ |}, Return tt).

(** [optimizer.param_groups[0][k] = v]. *)
Definition set_first_group (k : string) (v : PV) : M Optimizer unit := λ o,
  match param_groups o with
  | [] => (o, Raise IndexError)
  | g :: gs =>
    ({| param_groups := <[k := v]> g :: gs; state := state o |}, Return tt)
  end.

(** The old group is a dictionary of its own: clearing the list of groups
    does not change it. Its items are visited in the order of
    [map_to_list]; the keys are distinct. *)
Definition reset_optimizer_parameters (params : option PV)
    : M Trainer unit := λ trainer,
  on_optimizer (
    let* groups := (λ o, (o, Return (param_groups o))) in
    assert (bool_decide (length groups = 1%nat)) ;;
    let* old_param_group :=
      match groups with
      | g :: _ => pure g
      | [] => raise IndexError
      end in
    clear_param_groups ;;
    clear_state ;;
    match params with
    | None => add_param_group {["params" := parameters (model trainer)]}
    | Some params => add_param_group {["params" := params]}
    end ;;
    for_each (λ '(k, v),
      if negb (str_in k "params") then set_first_group k v else pure tt)
      (map_to_list old_param_group)) trainer.

Definition load_parameters (parameter_dict : TensorDict)
    (reuse_learning_rate : bool) : M Trainer unit :=
  (if reuse_learning_rate then
     on_model (model_util_load_parameter_dict parameter_dict) ;;
     reset_optimizer_parameters None
   else trainer_load_parameter_dict parameter_dict) ;;
  on_model disable_running_stats.

End Optimizer.

(** A concrete optimizer: groups hold numbers, [add_param_group] completes
    the group with the default learning rate and appends it. *)
Definition demo_add_param_group (g : gmap string Z)
    : M (@Optimizer Z nat _ _ Z) unit := λ o,
  ({| param_groups := param_groups o ++ [g ∪ {["lr" := 1]}];
      state := state o |}, Return tt).

Definition demo_trainer (groups : list (gmap string Z))
    : @Trainer Z nat _ _ Z Z :=
  {| optimizer := {| param_groups := groups; state := {[ 0%nat := 5 ]} |};
     model := 10 |}.

(** Loading adds the dictionary to the model; disabling the running
    statistics negates it. *)
Definition demo_load (d : Z) : M Z unit := λ m, (m + d, Return tt).

Definition demo_disable : M Z unit := λ m, (- m, Return tt).

Definition demo_trainer_load (d : Z) : M (@Trainer Z nat _ _ Z Z) unit :=
  λ tr, ({| optimizer := {| param_groups := []; state := ∅ |};
            model := model tr + d |}, Return tt).

End model.

(** ** Loops that build a dictionary *)

Section Loops.

Context `{Countable K} {A B : Type} (g : K → A → result B).

Lemma foldM_insert_Return (l : list (K * A)) (b out : gmap K B) :
  NoDup l.*1 →
  foldM (λ o '(k, x), do y <- g k x; Return (<[k := y]> o)) b l = Return out →
  (∀ k x, (k, x) ∈ l → ∃ y, g k x = Return y ∧ out !! k = Some y) ∧
  (∀ k, k ∉ l.*1 → out !! k = b !! k).
Proof.
  revert b. induction l as [|[k0 x0] l IH]; intros b Hnd Hf; simpl in *.
  - injection Hf as <-. split; [intros k x Hin; inversion Hin | done].
  - apply NoDup_cons in Hnd as [Hk0 Hnd].
    destruct (g k0 x0) as [y0|e] eqn:Hg; simpl in Hf; [|done].
    destruct (IH _ Hnd Hf) as [Hin Hout]. split.
    + intros k x [Heq|Hin']%elem_of_cons.
      * injection Heq as -> ->. exists y0. split; [done|].
        rewrite Hout by done. apply lookup_insert_eq.
      * by apply Hin.
    + intros k Hk. apply not_elem_of_cons in Hk as [Hne Hk].
      rewrite Hout by done. by apply lookup_insert_ne.
Qed.

Lemma foldM_insert_Raise (l : list (K * A)) (b : gmap K B) e :
  foldM (λ o '(k, x), do y <- g k x; Return (<[k := y]> o)) b l = Raise e →
  ∃ k x, (k, x) ∈ l ∧ g k x = Raise e.
Proof.
  revert b. induction l as [|[k0 x0] l IH]; intros b Hf; simpl in *; [done|].
  destruct (g k0 x0) as [y0|e0] eqn:Hg; simpl in Hf.
  - destruct (IH _ Hf) as (k & x & Hin & Hk). exists k, x.
    split; [by apply elem_of_cons; right | done].
  - injection Hf as ->. exists k0, x0. split; [apply elem_of_cons; by left | done].
Qed.

Lemma for_pairs_Return (l : list (K * A)) out :
  NoDup l.*1 → for_pairs g l = Return out →
  (∀ k x, (k, x) ∈ l → ∃ y, g k x = Return y ∧ out !! k = Some y) ∧
  (∀ k, k ∉ l.*1 → out !! k = None).
Proof.
  intros Hnd Hf. destruct (foldM_insert_Return _ _ _ Hnd Hf) as [H1 H2].
  split; [done|]. intros k Hk. by rewrite H2.
Qed.

Lemma for_pairs_Raise (l : list (K * A)) e :
  for_pairs g l = Raise e → ∃ k x, (k, x) ∈ l ∧ g k x = Raise e.
Proof. apply foldM_insert_Raise. Qed.

Lemma for_items_Return (d : gmap K A) out :
  for_items g d = Return out →
  ∀ k, out !! k = x ← d !! k; to_option (g k x).
Proof.
  intros Hf k.
  destruct (for_pairs_Return _ _ (NoDup_fst_map_to_list d) Hf) as [H1 H2].
  destruct (d !! k) as [x|] eqn:Hd; simpl.
  - apply elem_of_map_to_list in Hd. destruct (H1 _ _ Hd) as (y & -> & ->).
    done.
  - apply H2. intros ((k' & x) & -> & Hin)%list_elem_of_fmap.
    apply elem_of_map_to_list in Hin. simpl in Hd. congruence.
Qed.

Lemma for_items_Return_ok (d : gmap K A) out k x :
  for_items g d = Return out → d !! k = Some x →
  ∃ y, g k x = Return y ∧ out !! k = Some y.
Proof.
  intros Hf Hd.
  destruct (for_pairs_Return _ _ (NoDup_fst_map_to_list d) Hf) as [H1 _].
  apply H1. by apply elem_of_map_to_list.
Qed.

Lemma for_items_Raise (d : gmap K A) e :
  for_items g d = Raise e → ∃ k x, d !! k = Some x ∧ g k x = Raise e.
Proof.
  intros (k & x & Hin & Hg)%for_pairs_Raise. exists k, x.
  split; [by apply elem_of_map_to_list | done].
Qed.

Lemma for_items_total (d : gmap K A) :
  (∀ k x, d !! k = Some x → ∃ y, g k x = Return y) →
  ∃ out, for_items g d = Return out.
Proof.
  intros Hall. destruct (for_items g d) as [out|e] eqn:Hf; [by exists out|].
  apply for_items_Raise in Hf as (k & x & Hd & Hg).
  destruct (Hall _ _ Hd) as [y Hy]. congruence.
Qed.

End Loops.

(** ** Sorted identifiers and ranks *)

Section Sorting.

Context {Pid : Type} `{Countable Pid}.
Context (Pid_le : relation Pid).
Context `{!RelDecision Pid_le, !PartialOrder Pid_le, !Total Pid_le}.

Lemma sorted_Permutation (ids : gset Pid) : sorted Pid_le ids ≡ₚ elements ids.
Proof. apply merge_sort_Permutation. Qed.

Lemma sorted_StronglySorted (ids : gset Pid) :
  StronglySorted Pid_le (sorted Pid_le ids).
Proof. apply StronglySorted_merge_sort; apply _. Qed.

Lemma sorted_NoDup (ids : gset Pid) : NoDup (sorted Pid_le ids).
Proof. rewrite sorted_Permutation. apply NoDup_elements. Qed.

Lemma elem_of_sorted (ids : gset Pid) pid : pid ∈ sorted Pid_le ids ↔ pid ∈ ids.
Proof. rewrite sorted_Permutation. apply elem_of_elements. Qed.

Lemma length_sorted (ids : gset Pid) : length (sorted Pid_le ids) = size ids.
Proof. by rewrite sorted_Permutation. Qed.

Lemma filter_none (P : Pid → Prop) `{∀ x, Decision (P x)} (l : list Pid) :
  Forall (λ q, ¬ P q) l → filter P l = [].
Proof.
  induction 1 as [|q l Hq _ IH]; [done|].
  rewrite filter_cons. by rewrite decide_False.
Qed.

(** In a sorted list an element sits at the index that counts the strictly
    smaller elements. *)
Lemma StronglySorted_lookup_smaller (l : list Pid) x :
  StronglySorted Pid_le l → x ∈ l →
  l !! length (filter (λ q, strict Pid_le q x) l) = Some x.
Proof.
  induction 1 as [|y l Hs IH Hall]; intros Hx; [inversion Hx|].
  rewrite filter_cons. destruct (decide (x = y)) as [->|Hne].
  - rewrite decide_False by (intros [Hle Hn]; by apply Hn).
    rewrite filter_none; [done|].
    eapply Forall_impl; [exact Hall|]. intros q Hq [_ Hn]. by apply Hn.
  - apply elem_of_cons in Hx as [->|Hx]; [done|].
    assert (Pid_le y x) as Hyx by (eapply Forall_forall in Hall; eauto).
    rewrite decide_True.
    + simpl. by apply IH.
    + split; [done|]. intros Hxy. apply Hne. by apply (anti_symm Pid_le).
Qed.

(** Slot [rank ids pid] of [sorted(ids)] holds [pid]. *)
Lemma sorted_lookup_rank (ids : gset Pid) pid :
  pid ∈ ids → sorted Pid_le ids !! rank Pid_le ids pid = Some pid.
Proof.
  intros Hin. unfold rank.
  rewrite <- (sorted_Permutation ids).
  apply StronglySorted_lookup_smaller.
  - apply sorted_StronglySorted.
  - by apply elem_of_sorted.
Qed.

Lemma rank_lt_size (ids : gset Pid) pid :
  pid ∈ ids → (rank Pid_le ids pid < size ids)%nat.
Proof.
  intros Hin. rewrite <- length_sorted.
  eapply lookup_lt_Some. by apply sorted_lookup_rank.
Qed.

(** The index of an identifier in [sorted(ids)] is its rank. *)
Lemma sorted_lookup_inv (ids : gset Pid) i pid :
  sorted Pid_le ids !! i = Some pid → pid ∈ ids ∧ i = rank Pid_le ids pid.
Proof.
  intros Hi. assert (pid ∈ ids) as Hin.
  { apply elem_of_sorted. by eapply list_elem_of_lookup_2. }
  split; [done|].
  eapply NoDup_lookup; [apply sorted_NoDup | exact Hi |].
  by apply sorted_lookup_rank.
Qed.

End Sorting.

(** ** The remap of one round *)

Section Remap.

Context {Pid : Type} `{Countable Pid}.
Context (Pid_le : relation Pid).
Context `{!RelDecision Pid_le, !PartialOrder Pid_le, !Total Pid_le}.
Context {V : Type}.

Lemma lookup_zip_range (l : list Pid) n i x (wid : Z) :
  zip l (range n) !! i = Some (x, wid) ↔
  l !! i = Some x ∧ wid = Z.of_nat i ∧ Z.of_nat i < n.
Proof.
  unfold range. rewrite lookup_zip_with_Some. split.
  - intros (x' & y & [= -> ->] & Hl & Hr). apply lookup_seqZ in Hr as [-> Hr].
    split_and!; [done|lia|done].
  - intros (Hl & -> & Hlt). exists x, (Z.of_nat i). split_and!; [done..|].
    apply lookup_seqZ. lia.
Qed.

Lemma NoDup_fst_zip (l : list Pid) (r : list Z) : NoDup l → NoDup (zip l r).*1.
Proof.
  intros Hnd. revert r. induction Hnd as [|x l Hx Hnd IH]; intros [|y r]; simpl;
    try apply NoDup_nil_2.
  apply NoDup_cons. split; [|apply IH].
  intros ((x' & y') & -> & Hin)%list_elem_of_fmap. apply Hx.
  by apply elem_of_zip_l in Hin.
Qed.

(** The pairs the innermost loop runs over. *)
Lemma elem_of_pairing (ids : gset Pid) n pid (wid : Z) :
  (pid, wid) ∈ zip (sorted Pid_le ids) (range n) ↔
  pid ∈ ids ∧ wid = Z.of_nat (rank Pid_le ids pid) ∧
  (rank Pid_le ids pid < paired ids n)%nat.
Proof.
  rewrite list_elem_of_lookup. unfold paired. split.
  - intros (i & (Hl & -> & Hlt)%lookup_zip_range).
    apply sorted_lookup_inv in Hl as [Hin ->]; [|apply _..].
    pose proof (rank_lt_size Pid_le ids pid Hin). split_and!; [done..|lia].
  - intros (Hin & -> & Hlt). exists (rank Pid_le ids pid).
    apply lookup_zip_range. split_and!; [by apply sorted_lookup_rank|done|lia].
Qed.

Lemma remap_round_Return (ids : gset Pid) n (row : gmap Z V) row' :
  remap_round Pid_le ids n row = Return row' →
  ∀ pid,
    row' !! pid =
      if decide (pid ∈ ids ∧ (rank Pid_le ids pid < paired ids n)%nat)
      then row !! Z.of_nat (rank Pid_le ids pid) else None.
Proof.
  intros Hf pid. unfold remap_round in Hf.
  apply for_pairs_Return in Hf as [H1 H2];
    [|apply NoDup_fst_zip, sorted_NoDup; apply _].
  case_decide as Hd.
  - destruct Hd as [Hin Hlt].
    destruct (H1 pid (Z.of_nat (rank Pid_le ids pid))) as (v & Hv & ->).
    { apply elem_of_pairing. done. }
    unfold getitem in Hv. by destruct (row !! _); simplify_eq.
  - apply H2. intros ((pid' & wid) & -> & Hin)%list_elem_of_fmap.
    apply elem_of_pairing in Hin as (? & _ & ?). by apply Hd.
Qed.

Lemma remap_round_Return_Some (ids : gset Pid) n (row : gmap Z V) row' pid :
  remap_round Pid_le ids n row = Return row' →
  pid ∈ ids → (rank Pid_le ids pid < paired ids n)%nat →
  ∃ v, row !! Z.of_nat (rank Pid_le ids pid) = Some v ∧ row' !! pid = Some v.
Proof.
  intros Hf Hin Hlt. unfold remap_round in Hf.
  apply for_pairs_Return in Hf as [H1 _];
    [|apply NoDup_fst_zip, sorted_NoDup; apply _].
  destruct (H1 pid (Z.of_nat (rank Pid_le ids pid))) as (v & Hv & ->).
  { by apply elem_of_pairing. }
  exists v. unfold getitem in Hv. by destruct (row !! _); simplify_eq.
Qed.

Lemma remap_round_Raise (ids : gset Pid) n (row : gmap Z V) e :
  remap_round Pid_le ids n row = Raise e →
  e = KeyError ∧ ∃ i : nat, (i < paired ids n)%nat ∧ row !! Z.of_nat i = None.
Proof.
  intros (pid & wid & Hin & Hg)%for_pairs_Raise.
  apply elem_of_pairing in Hin as (_ & -> & Hlt).
  unfold getitem in Hg. destruct (row !! _) eqn:Hrow; simplify_eq.
  split; [done|]. eauto.
Qed.

Lemma remap_round_total (ids : gset Pid) n (row : gmap Z V) :
  slots_present ids n row → ∃ row', remap_round Pid_le ids n row = Return row'.
Proof.
  intros Hp. destruct (remap_round Pid_le ids n row) as [row'|e] eqn:Hf; [eauto|].
  apply remap_round_Raise in Hf as (_ & i & Hlt & Hnone).
  destruct (Hp i Hlt) as [v Hv]. congruence.
Qed.

(** A missing slot among the paired ones makes the round raise. *)
Lemma remap_round_missing (ids : gset Pid) n (row : gmap Z V) (i : nat) :
  (i < paired ids n)%nat → row !! Z.of_nat i = None →
  remap_round Pid_le ids n row = Raise KeyError.
Proof.
  intros Hlt Hnone.
  destruct (remap_round Pid_le ids n row) as [row'|e] eqn:Hf.
  - assert (is_Some (sorted Pid_le ids !! i)) as [pid Hpid].
    { apply lookup_lt_is_Some. rewrite length_sorted. unfold paired in Hlt. lia. }
    apply sorted_lookup_inv in Hpid as [Hin ->]; [|apply _..].
    destruct (remap_round_Return_Some _ _ _ _ _ Hf Hin Hlt) as (v & Hv & _).
    congruence.
  - by apply remap_round_Raise in Hf as [-> _].
Qed.

End Remap.

(** ** The result collector *)

Section Collector.

Context {Pid : Type} `{Countable Pid}.
Context (Pid_le : relation Pid).
Context `{!RelDecision Pid_le, !PartialOrder Pid_le, !Total Pid_le}.
Context {V : Type}.
Context {Config : Type} `{!ConfigOps Config}.

Local Abbreviation world := (@world Pid _ _ V Config).
Local Abbreviation task := (@task Pid _ _ Config).
Local Abbreviation fragment := (gmap string (@metric V)).
Local Abbreviation stats := (gmap string (@stat Pid _ _ V)).

Lemma merge_loop (task_id : Z) (results : list (option fragment)) :
  ∀ (w : world) acc, task_results w !! task_id = Some acc →
  for_each (λ result,
    match result with
    | Some r => merge_result task_id r
    | None => pure tt
    end) results w =
  ({| tasks := tasks w;
      task_results := <[task_id := merged acc results]> (task_results w);
      trace := trace w |}, Return tt).
Proof.
  induction results as [|[r|] results IH]; intros [ts trs tr] acc Hacc;
    simpl in *.
  - unfold pure. by rewrite insert_id.
  - unfold bind, merge_result at 1, bind, set_task_results, getitem. simpl.
    rewrite Hacc. rewrite (IH _ (dict_ior acc r)); simpl.
    + by rewrite insert_insert_eq.
    + apply lookup_insert_eq.
  - unfold bind, pure at 1. by rewrite (IH _ acc).
Qed.

(** A call for an identifier that is not in [tasks]. *)
Lemma get_training_result_unknown (w : world) task_id timeout results not_done :
  tasks w !! task_id = None →
  get_training_result Pid_le task_id timeout results not_done w = (w, Raise KeyError).
Proof.
  intros Hn. unfold get_training_result, bind, getitem.
  by rewrite Hn.
Qed.

(** A poll that finds work left. *)
Lemma get_training_result_incomplete (w : world) task_id t acc timeout results :
  tasks w !! task_id = Some t → task_results w !! task_id = Some acc →
  get_training_result Pid_le task_id timeout results true w =
  ({| tasks := tasks w;
      task_results := <[task_id := merged acc results]> (task_results w);
      trace := trace w ++ [WaitResults (process_pool t) timeout] |},
   Return None).
Proof.
  intros Ht Hacc.
  unfold get_training_result, bind at 1, getitem.
  rewrite Ht. unfold bind at 1, emit at 1. unfold bind at 1.
  rewrite (merge_loop _ _ _ acc); [done|done].
Qed.

(** A poll that finds all work done. *)
Lemma get_training_result_complete (w : world) task_id t acc timeout results :
  tasks w !! task_id = Some t → task_results w !! task_id = Some acc →
  get_training_result Pid_le task_id timeout results false w =
  let tr := trace w ++ [WaitResults (process_pool t) timeout;
                        Shutdown (process_pool t) None] in
  match for_items
          (post_process Pid_le (practitioner_ids t)
             (worker_number (config t)))
          (merged acc results) with
  | Return st =>
    ({| tasks := delete task_id (tasks w);
        task_results := delete task_id (task_results w);
        trace := tr |}, Return (Some st))
  | Raise e =>
    ({| tasks := delete task_id (tasks w);
        task_results := <[task_id := merged acc results]> (task_results w);
        trace := tr |}, Raise e)
  end.
Proof.
  intros Ht Hacc.
  unfold get_training_result, bind at 1, getitem.
  rewrite Ht. unfold bind at 1, emit at 1. unfold bind at 1.
  rewrite (merge_loop _ _ _ acc) by done.
  unfold bind, emit, set_tasks, set_task_results, pop, lift, pure, getitem.
  cbn [tasks task_results trace].
  rewrite Ht. cbn [tasks task_results trace].
  rewrite !lookup_insert_eq, <- app_assoc. cbn [app].
  destruct (for_items _ _) as [st|e]; [|done].
  by rewrite delete_insert_eq.
Qed.

(** *** Post-processing of the accumulated fragment *)

Lemma post_process_other (ids : gset Pid) n k (v : @metric V) :
  k ≠ "sv" → post_process Pid_le ids n k v = Return (Copied v).
Proof. intros Hk. unfold post_process. by rewrite bool_decide_eq_true_2. Qed.

Lemma post_process_sv (ids : gset Pid) n (v : @metric V) :
  post_process Pid_le ids n "sv" v =
  match v with
  | Table t =>
    do sv_dict <- for_items (λ _ row, remap_round Pid_le ids n row) t;
    Return (Remapped sv_dict)
  | Scalar _ => Raise AttributeError
  end.
Proof. unfold post_process. by rewrite bool_decide_eq_false_2 by naive_solver. Qed.

(** Only the ["sv"] entry can make the post-processing raise. *)
Lemma post_process_Raise (ids : gset Pid) n (acc : fragment) e :
  for_items (post_process Pid_le ids n) acc = Raise e →
  ∃ v, acc !! "sv" = Some v ∧ post_process Pid_le ids n "sv" v = Raise e.
Proof.
  intros (k & v & Hk & Hp)%for_items_Raise.
  destruct (decide (k = "sv")) as [->|Hne]; [eauto|].
  by rewrite post_process_other in Hp.
Qed.

Lemma post_process_total (ids : gset Pid) n (acc : fragment) :
  remappable ids n acc →
  ∃ st, for_items (post_process Pid_le ids n) acc = Return st.
Proof.
  intros Hr. destruct (for_items _ acc) as [st|e] eqn:Hf; [eauto|].
  apply post_process_Raise in Hf as (v & Hv & Hp).
  destruct (Hr v Hv) as (t & -> & Hrows). rewrite post_process_sv in Hp.
  destruct (for_items_total (λ _ row, remap_round Pid_le ids n row) t)
    as [sv Hsv].
  - intros r row Hrow. apply remap_round_total; [apply _..|]. eauto.
  - by rewrite Hsv in Hp.
Qed.

(** The stats of a post-processing that returns. *)
Lemma post_process_Return (ids : gset Pid) n (acc : fragment) (st : stats) :
  for_items (post_process Pid_le ids n) acc = Return st →
  (∀ k, k ≠ "sv" → st !! k = Copied <$> acc !! k) ∧
  (acc !! "sv" = None → st !! "sv" = None) ∧
  (∀ orig, acc !! "sv" = Some (Table orig) →
     ∃ sv, st !! "sv" = Some (Remapped sv) ∧
       for_items (λ _ row, remap_round Pid_le ids n row) orig = Return sv).
Proof.
  intros Hf. pose proof (for_items_Return _ _ _ Hf) as Hst. split_and!.
  - intros k Hk. rewrite Hst. destruct (acc !! k) as [v|]; simpl; [|done].
    by rewrite post_process_other.
  - intros Hn. by rewrite Hst, Hn.
  - intros orig Ho.
    destruct (for_items_Return_ok _ _ _ _ _ Hf Ho) as (y & Hy & Hsty).
    rewrite post_process_sv in Hy.
    destruct (for_items _ orig) as [sv|] eqn:Hsv; [|done].
    injection Hy as <-. eauto.
Qed.

(** The rounds of a remapped table. *)
Lemma remap_rounds_Return (ids : gset Pid) n (orig : gmap Z (gmap Z V)) sv :
  for_items (λ _ row, remap_round Pid_le ids n row) orig = Return sv →
  (∀ r, orig !! r = None → sv !! r = None) ∧
  (∀ r row, orig !! r = Some row →
     ∃ row', sv !! r = Some row' ∧ remap_round Pid_le ids n row = Return row').
Proof.
  intros Hf. split.
  - intros r Hr. by rewrite (for_items_Return _ _ _ Hf), Hr.
  - intros r row Hr.
    destruct (for_items_Return_ok _ _ _ _ _ Hf Hr) as (row' & ? & ?). eauto.
Qed.

(** *** What a completed run returns *)

Lemma complete_Return (w w' : world) task_id t acc timeout results st :
  tasks w !! task_id = Some t → task_results w !! task_id = Some acc →
  get_training_result Pid_le task_id timeout results false w =
    (w', Return (Some st)) →
  for_items (post_process Pid_le (practitioner_ids t)
               (worker_number (config t))) (merged acc results) = Return st ∧
  tasks w' = delete task_id (tasks w) ∧
  task_results w' = delete task_id (task_results w).
Proof.
  intros Ht Hacc Hg. rewrite (get_training_result_complete _ _ t acc) in Hg by done.
  cbv zeta in Hg. destruct (for_items _ _) as [st'|e]; [|done].
  by injection Hg as <- <-.
Qed.

Lemma complete_Raise (w w' : world) task_id t acc timeout results e :
  tasks w !! task_id = Some t → task_results w !! task_id = Some acc →
  get_training_result Pid_le task_id timeout results false w = (w', Raise e) →
  for_items (post_process Pid_le (practitioner_ids t)
               (worker_number (config t))) (merged acc results) = Raise e ∧
  tasks w' = delete task_id (tasks w) ∧
  task_results w' = <[task_id := merged acc results]> (task_results w).
Proof.
  intros Ht Hacc Hg. rewrite (get_training_result_complete _ _ t acc) in Hg by done.
  cbv zeta in Hg. destruct (for_items _ _) as [st'|e']; [done|].
  by injection Hg as <- <-.
Qed.

(** With as many workers as participants every participant is paired. *)
Lemma paired_all (ids : gset Pid) n : n = Z.of_nat (size ids) → paired ids n = size ids.
Proof. intros ->. unfold paired. lia. Qed.

Lemma sv_remap_rank (w w' : world) task_id t acc timeout results st orig :
  tasks w !! task_id = Some t → task_results w !! task_id = Some acc →
  worker_number (config t) = Z.of_nat (size (practitioner_ids t)) →
  merged acc results !! "sv" = Some (Table orig) →
  get_training_result Pid_le task_id timeout results false w =
    (w', Return (Some st)) →
  ∃ sv, st !! "sv" = Some (Remapped sv) ∧
    ∀ round row, orig !! round = Some row →
      ∃ row', sv !! round = Some row' ∧
        ∀ pid, pid ∈ practitioner_ids t →
          ∃ v, row' !! pid = Some v ∧
            row !! Z.of_nat (rank Pid_le (practitioner_ids t) pid) = Some v.
Proof.
  intros Ht Hacc Hn Ho Hg.
  destruct (complete_Return _ _ _ _ _ _ _ _ Ht Hacc Hg) as (Hf & _ & _).
  apply post_process_Return in Hf as (_ & _ & Hsv).
  destruct (Hsv _ Ho) as (sv & Hst & Hrounds). exists sv. split; [done|].
  intros round row Hrow.
  apply remap_rounds_Return in Hrounds as [_ Hr].
  destruct (Hr _ _ Hrow) as (row' & Hsvr & Hrr). exists row'. split; [done|].
  intros pid Hin.
  destruct (remap_round_Return_Some Pid_le _ _ _ _ pid Hrr Hin) as (v & ? & ?).
  - rewrite (paired_all _ _ Hn). by apply rank_lt_size.
  - eauto.
Qed.

(** A round that lacks a paired slot makes the whole post-processing raise
    [KeyError]. *)
Lemma post_process_missing_slot (ids : gset Pid) n (acc : fragment) orig
    round row (i : nat) :
  acc !! "sv" = Some (Table orig) → orig !! round = Some row →
  (i < paired ids n)%nat → row !! Z.of_nat i = None →
  for_items (post_process Pid_le ids n) acc = Raise KeyError.
Proof.
  intros Ho Hrow Hlt Hnone.
  pose proof (remap_round_missing Pid_le ids n row i Hlt Hnone) as Hbad.
  assert (for_items (λ _ row, remap_round Pid_le ids n row) orig
          = Raise KeyError) as Hrounds.
  { destruct (for_items _ orig) as [sv|e] eqn:Hf.
    - destruct (for_items_Return_ok _ _ _ _ _ Hf Hrow) as (? & ? & _).
      congruence.
    - apply for_items_Raise in Hf as (r & row0 & _ & Hr).
      by apply remap_round_Raise in Hr as [-> _]. }
  destruct (for_items (post_process _ _ _) acc) as [st|e] eqn:Hf.
  - apply post_process_Return in Hf as (_ & _ & Hsv).
    destruct (Hsv _ Ho) as (sv & _ & Hsv'). congruence.
  - apply post_process_Raise in Hf as (v & Hv & Hp).
    rewrite Ho in Hv. injection Hv as <-.
    rewrite post_process_sv, Hrounds in Hp. by injection Hp as <-.
Qed.

(** *** Merging *)

Lemma lookup_dict_ior (acc f : fragment) k :
  dict_ior acc f !! k =
  match f !! k with Some v => Some v | None => acc !! k end.
Proof.
  unfold dict_ior. destruct (f !! k) as [v|] eqn:Hf.
  - by apply lookup_union_Some_l.
  - by apply lookup_union_r.
Qed.

Lemma merged_snoc (acc : fragment) results r :
  merged acc (results ++ [r]) =
  match r with
  | Some f => dict_ior (merged acc results) f
  | None => merged acc results
  end.
Proof. unfold merged. by rewrite foldl_app. Qed.

(** C2 (amended): the life cycle of a registered task. A poll that finds
    work left answers [None] and keeps the task in both registries with its
    record unchanged; a poll that finds the run complete, when the
    accumulated fragment can be post-processed (its ["sv"] entry, if any, is
    a table whose rounds hold every paired slot), answers the stats (every
    key but ["sv"] copied through), removes the task from both registries,
    and every later call with that identifier raises [KeyError]; so does a
    call with an identifier that is not registered. *)
Theorem get_training_result_lifecycle (w : world) task_id t acc timeout results :
  tasks w !! task_id = Some t → task_results w !! task_id = Some acc →
  (∃ w1,
     get_training_result Pid_le task_id timeout results true w
       = (w1, Return None) ∧
     registered w1 task_id ∧ tasks w1 = tasks w ∧
     task_results w1 !! task_id = Some (merged acc results)) ∧
  (remappable (practitioner_ids t) (worker_number (config t))
     (merged acc results) →
   ∃ w2 st,
     get_training_result Pid_le task_id timeout results false w
       = (w2, Return (Some st)) ∧
     (∀ k, k ≠ "sv" → st !! k = Copied <$> merged acc results !! k) ∧
     tasks w2 !! task_id = None ∧ task_results w2 !! task_id = None ∧
     ∀ timeout' results' not_done,
       get_training_result Pid_le task_id timeout' results' not_done w2
         = (w2, Raise KeyError)) ∧
  (∀ (w0 : world) id0 timeout' results' not_done,
     tasks w0 !! id0 = None →
     get_training_result Pid_le id0 timeout' results' not_done w0
       = (w0, Raise KeyError)).
Proof.
  intros Ht Hacc. split_and!.
  - eexists. split; [by apply get_training_result_incomplete|].
    unfold registered. cbn [tasks task_results].
    rewrite Ht, lookup_insert_eq. eauto.
  - intros Hr. destruct (post_process_total _ _ _ Hr) as [st Hst].
    rewrite (get_training_result_complete _ _ t acc) by done.
    cbv zeta. rewrite Hst. do 2 eexists. split; [done|].
    cbn [tasks task_results]. rewrite !lookup_delete_eq. split_and!; [|done..|].
    + by apply post_process_Return in Hst as [? _].
    + intros. apply get_training_result_unknown; [apply _..|].
      apply lookup_delete_eq.
  - intros. by apply get_training_result_unknown.
Qed.

(** C9: whatever [worker_number] is, the remap pairs the
    [min(worker_number, |ids|)] smallest identifiers with the slots
    [0 .. min-1]: when every round's table holds those slots the call returns,
    each rebuilt round maps exactly those identifiers, each to the value of
    the slot of its rank, and holds no entry for any other identifier. *)
Theorem sv_remap_truncates (w : world) task_id t acc timeout results orig :
  tasks w !! task_id = Some t → task_results w !! task_id = Some acc →
  merged acc results !! "sv" = Some (Table orig) →
  (∀ round row, orig !! round = Some row →
     slots_present (practitioner_ids t) (worker_number (config t)) row) →
  ∃ w' st sv,
    get_training_result Pid_le task_id timeout results false w
      = (w', Return (Some st)) ∧
    st !! "sv" = Some (Remapped sv) ∧
    (∀ round, orig !! round = None → sv !! round = None) ∧
    ∀ round row, orig !! round = Some row →
      ∃ row', sv !! round = Some row' ∧
        ∀ pid, row' !! pid =
          if decide (pid ∈ practitioner_ids t ∧
                     (rank Pid_le (practitioner_ids t) pid
                      < paired (practitioner_ids t)
                          (worker_number (config t)))%nat)
          then row !! Z.of_nat (rank Pid_le (practitioner_ids t) pid)
          else None.
Proof.
  intros Ht Hacc Ho Hslots.
  destruct (post_process_total (practitioner_ids t)
              (worker_number (config t)) (merged acc results)) as [st Hst].
  { intros v Hv. rewrite Ho in Hv. injection Hv as <-. eauto. }
  rewrite (get_training_result_complete _ _ t acc) by done.
  cbv zeta. rewrite Hst.
  apply post_process_Return in Hst as (_ & _ & Hsv).
  destruct (Hsv _ Ho) as (sv & Hstsv & Hrounds).
  apply remap_rounds_Return in Hrounds as [Hnone Hsome].
  do 3 eexists. split_and!; [done..|].
  intros round row Hrow. destruct (Hsome _ _ Hrow) as (row' & ? & Hrr).
  exists row'. split; [done|]. intros pid.
  by apply remap_round_Return.
Qed.

(** C10: on the completion path the task leaves [tasks] before the remap
    and [task_results] only after it. Whenever the completing call raises,
    the task is gone from [tasks] while its accumulated fragment is still in
    [task_results]; and it does raise [KeyError] when a round of the ["sv"]
    table lacks a paired slot. *)
Theorem completion_cleanup_not_atomic (w : world) task_id t acc timeout
    results :
  tasks w !! task_id = Some t → task_results w !! task_id = Some acc →
  (∀ w' e,
     get_training_result Pid_le task_id timeout results false w
       = (w', Raise e) →
     tasks w' !! task_id = None ∧
     task_results w' !! task_id = Some (merged acc results)) ∧
  (∀ orig round row (i : nat),
     merged acc results !! "sv" = Some (Table orig) →
     orig !! round = Some row →
     (i < paired (practitioner_ids t) (worker_number (config t)))%nat →
     row !! Z.of_nat i = None →
     ∃ w',
       get_training_result Pid_le task_id timeout results false w
         = (w', Raise KeyError) ∧
       tasks w' !! task_id = None ∧
       task_results w' !! task_id = Some (merged acc results)).
Proof.
  intros Ht Hacc. split.
  - intros w' e Hg.
    destruct (complete_Raise _ _ _ _ _ _ _ _ Ht Hacc Hg) as (_ & -> & ->).
    by rewrite lookup_delete_eq, lookup_insert_eq.
  - intros orig round row i Ho Hrow Hlt Hnone.
    rewrite (get_training_result_complete _ _ t acc) by done. cbv zeta.
    rewrite (post_process_missing_slot _ _ _ _ _ _ _ Ho Hrow Hlt Hnone).
    eexists. split; [done|]. cbn [tasks task_results].
    by rewrite lookup_delete_eq, lookup_insert_eq.
Qed.

End Collector.

(** ** Launching a run *)

Section Launch.

Context {Pid : Type} `{Countable Pid}.
Context {V : Type}.
Context {Config : Type} `{!ConfigOps Config}.

Local Abbreviation world := (@world Pid _ _ V Config).
Local Abbreviation event := (@event V Config).

Lemma worker_funs_replicate {A} (l : list A) (funs : list callable) :
  foldl (λ funs _, funs ++ [fn_run_worker]) funs l =
  funs ++ replicate (length l) fn_run_worker.
Proof.
  revert funs. induction l as [|x l IH]; intros funs; simpl.
  - by rewrite app_nil_r.
  - rewrite IH, <- app_assoc. done.
Qed.

Lemma start_workers_ok (w : world) p (worker_configs : list (@WorkerConfig)) :
  worker_configs ≠ [] →
  start_workers (FederatedLearningContext p) worker_configs w =
  ({| tasks := tasks w; task_results := task_results w;
      trace := trace w ++
        [Submit (FederatedLearningContext p)
           (replicate (length worker_configs) fn_run_worker)
           (KwargsList worker_configs)] |}, Return tt).
Proof.
  intros Hne. unfold start_workers, bind, assert, emit, pure. simpl.
  rewrite bool_decide_eq_true_2 by done. by rewrite worker_funs_replicate.
Qed.

Lemma start_workers_refused (w : world) ctx (worker_configs : list (@WorkerConfig)) :
  isinstance_FederatedLearningContext ctx = false ∨ worker_configs = [] →
  start_workers ctx worker_configs w = (w, Raise AssertionError).
Proof.
  intros Hbad. unfold start_workers, bind, assert, emit, pure, raise.
  destruct (isinstance_FederatedLearningContext ctx); [|done].
  destruct Hbad as [? | ->]; [done|]. by rewrite bool_decide_eq_false_2 by naive_solver.
Qed.

(** C7: the worker group launcher raises [AssertionError], submitting
    nothing, when the context is not a [FederatedLearningContext] or the
    list is empty; otherwise it makes one [submit] call whose callables are
    one [run_worker] per configuration, the i-th one scheduled with the i-th
    configuration. *)
Theorem start_workers_spec (w : world) ctx (worker_configs : list (@WorkerConfig)) :
  (isinstance_FederatedLearningContext ctx = false ∨ worker_configs = [] →
   start_workers ctx worker_configs w = (w, Raise AssertionError)) ∧
  (isinstance_FederatedLearningContext ctx = true → worker_configs ≠ [] →
   ∃ ev : event,
     start_workers ctx worker_configs w =
       ({| tasks := tasks w; task_results := task_results w;
           trace := trace w ++ [ev] |}, Return tt) ∧
     ev = Submit ctx (replicate (length worker_configs) fn_run_worker)
            (KwargsList worker_configs) ∧
     invocations ev = (λ c, (fn_run_worker, inr c)) <$> worker_configs).
Proof.
  split; [apply start_workers_refused|].
  intros Hctx Hne. destruct ctx as [p|]; [|done].
  eexists. split; [by apply start_workers_ok|]. split; [done|].
  cbn [invocations]. clear. induction worker_configs as [|c l IH]; [done|].
  cbn [length replicate fmap list_fmap]. cbn. f_equal. exact IH.
Qed.

Lemma submitted_app (tr1 tr2 : list event) :
  submitted (tr1 ++ tr2) = submitted tr1 ++ submitted tr2.
Proof. unfold submitted. by rewrite fmap_app, concat_app. Qed.

Lemma world_trace_nil (w : world) :
  {| tasks := tasks w; task_results := task_results w;
     trace := trace w ++ [] |} = w.
Proof. destruct w. by rewrite app_nil_r. Qed.

(** The loop over the worker batches only extends the trace, with
    [run_worker] submissions. *)
Lemma start_workers_loop p (batches : list (list (@WorkerConfig))) :
  ∀ w : world, ∃ new k r,
    for_each (λ worker_configs,
      start_workers (FederatedLearningContext p) worker_configs) batches w =
    ({| tasks := tasks w; task_results := task_results w;
        trace := trace w ++ new |}, r) ∧
    submitted new = replicate k (FederatedLearningContext p, fn_run_worker) ∧
    (Forall (λ b, b ≠ []) batches →
     r = Return tt ∧ k = length (concat batches)).
Proof.
  induction batches as [|b bs IH]; intros w.
  - exists [], 0%nat, (Return tt). by rewrite world_trace_nil.
  - cbn [for_each]. unfold bind. destruct (decide (b = [])) as [->|Hne].
    + rewrite start_workers_refused by (by right).
      exists [], 0%nat, (Raise AssertionError). rewrite world_trace_nil.
      split_and!; [done..|]. intros Hall. by inversion Hall.
    + rewrite start_workers_ok by done.
      edestruct IH as (new & k & r & -> & Hsub & Hall).
      cbn [tasks task_results trace]. rewrite <- app_assoc.
      do 3 eexists. split; [done|]. split.
      * rewrite submitted_app, Hsub. unfold submitted. cbn.
        rewrite fmap_replicate, app_nil_r, <- replicate_add. done.
      * intros [_ Hbs]%Forall_cons. destruct (Hall Hbs) as [-> ->].
        split; [done|]. cbn. by rewrite length_app.
Qed.

Context (get_worker_config :
  Config → option Z → option (list (@Practitioner Pid)) →
  @worker_config_dict V).

(** The shared part of [train] leaves the registries alone; with a context
    and a server configuration in the derived configuration it submits the
    server first and then only workers. *)
Lemma submit_run_outcome (w : world) cfg task_id ps :
  ∃ new r,
    submit_run get_worker_config cfg task_id ps w =
    ({| tasks := tasks w; task_results := task_results w;
        trace := trace w ++ new |}, r) ∧
    ∀ p sc,
      wc_context (get_worker_config cfg task_id ps)
        = Some (FederatedLearningContext p) →
      wc_server (get_worker_config cfg task_id ps) = Some sc →
      (∃ k, submitted new =
         (FederatedLearningContext p, fn_start_server)
         :: replicate k (FederatedLearningContext p, fn_run_worker)) ∧
      (∀ batches,
         wc_worker (get_worker_config cfg task_id ps) = Some batches →
         Forall (λ b, b ≠ []) batches →
         r = Return (FederatedLearningContext p)).
Proof.
  unfold submit_run, bind, assert, emit, pure, raise.
  destruct (wc_context _) as [[p|]|] eqn:Hctx; cbn;
    [| exists [], (Raise AssertionError); by rewrite world_trace_nil
     | exists [], (Raise KeyError); by rewrite world_trace_nil ].
  destruct (wc_server _) as [sc|] eqn:Hsc; cbn;
    [| exists [], (Raise AssertionError); by rewrite world_trace_nil ].
  destruct (wc_worker _) as [batches|] eqn:Hw; cbn.
  - edestruct (start_workers_loop p batches) as (new & k & r & -> & Hsub & Hall).
    cbn [tasks task_results trace]. rewrite <- app_assoc. cbn [app].
    eexists _, (match r with Return _ => _ | Raise e => _ end).
    split; [by destruct r|].
    intros p' sc' [= <-] [= <-]. split.
    + exists k. change (Submit ?c ?f ?kw :: new) with ([Submit c f kw] ++ new).
      by rewrite submitted_app, Hsub.
    + intros bs [= <-] Hne. by destruct (Hall Hne) as [-> _].
  - do 2 eexists. split; [done|]. intros p' sc' [= <-] [= <-].
    split; [by exists 0%nat | done].
Qed.

(** The task identifier [train] hands to [get_worker_config]. *)
Local Abbreviation task_id_of env ps :=
  (match ps with
   | None => None
   | Some _ => Some (uuid4_int env + getpid env)
   end).

(** Synchronous mode never touches the registries, whatever happens. *)
Lemma train_sync_frame (w : world) env cfg :
  tasks (train get_worker_config env cfg None w).1 = tasks w ∧
  task_results (train get_worker_config env cfg None w).1 = task_results w.
Proof.
  unfold train, bind, emit, lift, pure. cbn [tasks task_results trace].
  edestruct submit_run_outcome as (new & r & -> & _).
  destruct r as [[p|]|e]; done.
Qed.

(** C5: in synchronous mode (no participants), with a derived
    configuration that holds a context, a server configuration and non-empty
    worker batches, [train] returns [None], and neither registry changes. *)
Theorem train_synchronous_mode (w : world) env cfg p sc batches :
  derived_ok (get_worker_config (reset_session cfg) None None) p sc batches →
  ∃ w',
    train get_worker_config env cfg None w = (w', Return None) ∧
    tasks w' = tasks w ∧ task_results w' = task_results w.
Proof.
  intros (Hctx & Hsc & Hw & Hne).
  pose proof (train_sync_frame w env cfg) as [Ht Hr]. revert Ht Hr.
  unfold train, bind, emit, lift, pure. cbn [tasks task_results trace].
  edestruct submit_run_outcome as (new & r & -> & Hspec).
  destruct (Hspec _ _ Hctx Hsc) as [_ Hret]. rewrite (Hret _ Hw Hne).
  cbn. eauto.
Qed.

(** C4: whenever the derived configuration holds an execution context and
    a server configuration, the callables one call of [train] submits are,
    in order, [start_server] once and then only [run_worker]s, all to that
    context. *)
Theorem train_server_submitted_first (w : world) env cfg ps p sc :
  wc_context (get_worker_config (reset_session cfg) (task_id_of env ps) ps)
    = Some (FederatedLearningContext p) →
  wc_server (get_worker_config (reset_session cfg) (task_id_of env ps) ps)
    = Some sc →
  ∃ new k,
    trace (train get_worker_config env cfg ps w).1 = trace w ++ new ∧
    submitted new =
      (FederatedLearningContext p, fn_start_server)
      :: replicate k (FederatedLearningContext p, fn_run_worker).
Proof.
  intros Hctx Hsc. unfold train, bind at 1, emit at 1.
  destruct ps as [ps|].
  - unfold bind, emit, lift, pure, set_tasks, set_task_results.
    edestruct submit_run_outcome as (new & r & -> & Hspec).
    destruct (Hspec _ _ Hctx Hsc) as [[k Hsub] _].
    cbn [tasks task_results trace]. rewrite <- app_assoc.
    exists (ApplyGlobalConfig (reset_session cfg) :: new), k.
    split; [by destruct r as [[?|]|]|].
    change (?e :: new) with ([e] ++ new). rewrite submitted_app, Hsub.
    reflexivity.
  - unfold bind, emit, lift, pure.
    edestruct submit_run_outcome as (new & r & -> & Hspec).
    destruct (Hspec _ _ Hctx Hsc) as [[k Hsub] _].
    cbn [tasks task_results trace]. rewrite <- !app_assoc.
    destruct r as [[p'|]|e]; cbn [get_executor_pool fst trace];
      rewrite <- ?app_assoc; eexists _, k; (split; [done|]);
      repeat (rewrite submitted_app || cbn [app]); rewrite Hsub;
      unfold submitted; cbn; by rewrite ?app_nil_r.
Qed.

(** An asynchronous call can only answer the sum of the random value and
    the process identifier. *)
Lemma train_async_id (w w' : world) env cfg ps i :
  train get_worker_config env cfg (Some ps) w = (w', Return (Some i)) →
  i = uuid4_int env + getpid env.
Proof.
  unfold train, bind, emit, lift, pure, set_tasks, set_task_results.
  edestruct submit_run_outcome as (new & r & -> & _).
  destruct r as [[p|]|e]; cbn; congruence.
Qed.


Lemma minted_train_all
    (calls : list (process_env * Config * list (@Practitioner Pid))) :
  ∀ w : world,
    minted (train_all get_worker_config calls w).2 `sublist_of`
    (λ c, uuid4_int c.1.1 + getpid c.1.1) <$> calls.
Proof.
  induction calls as [|[[env cfg] ps] calls IH]; intros w; [done|].
  cbn [train_all].
  destruct (train get_worker_config env cfg (Some ps) w) as [w' r] eqn:Ht.
  specialize (IH w').
  destruct (train_all get_worker_config calls w') as [w'' rs].
  cbn [snd fmap list_fmap fst] in *. unfold minted in *. cbn [omap list_omap].
  destruct r as [[i|]|e]; try by apply sublist_cons.
  apply train_async_id in Ht as ->. by apply sublist_skip.
Qed.


End Launch.

(** ** The server runner *)

Section ServerRunner.

Context {V : Type}.

(** C6: the fragment of a completed [start_server] call maps
    ["performance"] to the server's [performance_stat], holds ["sv"] exactly
    when the server's algorithm has the attribute [shapley_values] (then with
    that value), and holds no other key. *)
Theorem start_server_fragment ctx (server_config : @ServerConfig V) res :
  start_server ctx server_config = Return res →
  ∃ ctor server st,
    constructor server_config = Some ctor ∧
    ctor ctx = Return server ∧
    start server (server_state server) = Return st ∧
    res !! "performance" = Some (performance_stat st) ∧
    res !! "sv" = shapley_values (algorithm st) ∧
    (is_Some (res !! "sv") ↔ hasattr_shapley_values (algorithm st) = true) ∧
    ∀ k, k ≠ "performance" → k ≠ "sv" → res !! k = None.
Proof.
  unfold start_server, rbind, dict_ior, hasattr_shapley_values.
  destruct (constructor server_config) as [ctor|]; [|done].
  destruct (ctor ctx) as [server|] eqn:Hc; [|done].
  destruct (start server _) as [st|] eqn:Hs; [|done].
  intros [= <-]. exists ctor, server, st. split_and!; [done..| | | |].
  - apply lookup_union_Some_l, lookup_singleton_eq.
  - rewrite lookup_union_r by done.
    destruct (shapley_values _); [apply lookup_insert_eq | apply lookup_empty].
  - rewrite lookup_union_r by done. rewrite bool_decide_eq_true.
    destruct (shapley_values _); by rewrite ?lookup_insert_eq, ?lookup_empty.
  - intros k Hp Hs'. rewrite lookup_union_r by by apply lookup_singleton_ne.
    destruct (shapley_values _);
      by rewrite ?lookup_insert_ne, ?lookup_empty by done.
Qed.

End ServerRunner.

(** ** The claims on the concrete run *)

Lemma demo_world_registered :
  tasks (demo_world 3) !! 1007 = Some (demo_task 3) ∧
  task_results (demo_world 3) !! 1007 = Some ∅.
Proof. split; vm_compute; reflexivity. Qed.

(** C1: when the recorded worker number is the number of recorded
    participants, the ["sv"] table of the stats a completed run returns maps,
    in every round of the accumulated table, each participant to the value
    of the slot of its rank among the sorted identifiers; and the run of the
    participants p3, p1, p2 with the fragment of the scenario returns the
    expected stats. *)
Theorem sv_remap_by_rank :
  (∀ (Pid : Type) `(Countable Pid) (Pid_le : relation Pid)
     `(!RelDecision Pid_le) `(!PartialOrder Pid_le) `(!Total Pid_le)
     (V Config : Type) `(!ConfigOps Config)
     (w w' : @world Pid _ _ V Config) task_id t acc timeout results st orig,
     tasks w !! task_id = Some t → task_results w !! task_id = Some acc →
     worker_number (config t) = Z.of_nat (size (practitioner_ids t)) →
     merged acc results !! "sv" = Some (Table orig) →
     get_training_result Pid_le task_id timeout results false w
       = (w', Return (Some st)) →
     ∃ sv, st !! "sv" = Some (Remapped sv) ∧
       ∀ round row, orig !! round = Some row →
         ∃ row', sv !! round = Some row' ∧
           ∀ pid, pid ∈ practitioner_ids t →
             ∃ v, row' !! pid = Some v ∧
               row !! Z.of_nat (rank Pid_le (practitioner_ids t) pid)
                 = Some v) ∧
  (get_training_result String.le 1007 None
     [Some demo_fragment; None; None; None] false (demo_world 3)).2
  = Return (Some demo_stats).
Proof.
  split.
  - intros. by eapply sv_remap_rank.
  - vm_compute. reflexivity.
Qed.

Lemma sv_remap_by_rank_witness :
  worker_number (config (demo_task 3))
    = Z.of_nat (size (practitioner_ids (demo_task 3))) ∧
  ∃ sv, demo_stats !! "sv" = Some (Remapped sv) ∧
    ∀ round row, demo_sv !! round = Some row →
      ∃ row', sv !! round = Some row' ∧
        ∀ pid, pid ∈ practitioner_ids (demo_task 3) →
          ∃ v, row' !! pid = Some v ∧
            row !! Z.of_nat
                     (rank String.le (practitioner_ids (demo_task 3)) pid)
              = Some v.
Proof.
  split; [vm_compute; reflexivity|].
  apply (proj1 sv_remap_by_rank string _ _ String.le _ _ _ pynum SimpleConfig _
           (demo_world 3)
           (get_training_result String.le 1007 None
              [Some demo_fragment; None; None; None] false (demo_world 3)).1
           1007 (demo_task 3) ∅ None
           [Some demo_fragment; None; None; None] demo_stats demo_sv);
    vm_compute; reflexivity.
Defined.

(** The counterexample to C2 as stated: a registered task whose completed
    run raises [KeyError] instead of returning the stats, and stays in
    [task_results]. *)
Lemma lifecycle_counterexample :
  let out :=
    get_training_result String.le 1007 None
      [Some short_fragment; None; None; None] false (demo_world 3) in
  registered (demo_world 3) 1007 ∧
  out.2 = Raise KeyError ∧
  tasks out.1 !! 1007 = None ∧
  task_results out.1 !! 1007 = Some short_fragment.
Proof.
  cbv zeta. split_and!.
  - split; vm_compute; eauto.
  - vm_compute. reflexivity.
  - vm_compute. reflexivity.
  - vm_compute. reflexivity.
Qed.

Lemma get_training_result_lifecycle_witness :
  (tasks (demo_world 3) !! 1007 = Some (demo_task 3) ∧
   task_results (demo_world 3) !! 1007 = Some ∅) ∧
  (∃ w1,
     get_training_result String.le 1007 None [Some demo_fragment] true
       (demo_world 3) = (w1, Return None) ∧
     registered w1 1007) ∧
  (∃ w2 st,
     get_training_result String.le 1007 None [Some demo_fragment] false
       (demo_world 3) = (w2, Return (Some st)) ∧
     tasks w2 !! 1007 = None ∧ task_results w2 !! 1007 = None ∧
     get_training_result String.le 1007 None [] false w2
       = (w2, Raise KeyError)).
Proof.
  destruct demo_world_registered as [Ht Hacc]. split; [done|].
  destruct (get_training_result_lifecycle String.le (demo_world 3) 1007
              (demo_task 3) ∅ None [Some demo_fragment] Ht Hacc)
    as ((w1 & H1 & Hreg & _) & Hdone & _).
  split; [by exists w1|].
  destruct Hdone as (w2 & st & H2 & _ & Ht2 & Hr2 & Hlater).
  - intros v Hv.
    assert (Some v = Some (Table demo_sv)) as [= ->]
      by (rewrite <- Hv; vm_compute; reflexivity).
    eexists. split; [reflexivity|]. intros r row Hr. unfold demo_sv in Hr.
    apply lookup_singleton_Some in Hr as [<- <-].
    intros i Hi. vm_compute in Hi.
    destruct i as [|[|[|i]]]; [vm_compute; eauto..|lia].
  - exists w2, st. split_and!; [done..|]. apply Hlater.
Defined.

(** C8: merging is a union by key in which the later fragment wins. A
    merge keeps the keys the new fragment lacks and takes its value for every
    key it holds; a poll leaves the accumulator merged with the completed
    fragments in their order; and merging a = 1 and then a = 2, b = 3 into an
    empty accumulator leaves a = 2, b = 3. *)
Theorem merge_last_writer_wins :
  (∀ (V : Type) (acc f : gmap string (@metric V)) k,
     dict_ior acc f !! k =
     match f !! k with Some v => Some v | None => acc !! k end) ∧
  (∀ (V : Type) (acc : gmap string (@metric V)) results f k,
     merged acc (results ++ [Some f]) !! k =
     match f !! k with
     | Some v => Some v
     | None => merged acc results !! k
     end) ∧
  (∀ (Pid : Type) `(Countable Pid) (Pid_le : relation Pid)
     `(!RelDecision Pid_le) (V Config : Type) `(!ConfigOps Config)
     (w : @world Pid _ _ V Config) task_id t acc timeout results,
     tasks w !! task_id = Some t → task_results w !! task_id = Some acc →
     task_results
       (get_training_result Pid_le task_id timeout results true w).1
       !! task_id = Some (merged acc results)) ∧
  task_results
    (get_training_result String.le 1007 None
       [Some fragment_a; Some fragment_ab] true (demo_world 3)).1 !! 1007
  = Some fragment_ab.
Proof.
  split_and!.
  - intros. apply lookup_dict_ior.
  - intros. rewrite merged_snoc. apply lookup_dict_ior.
  - intros Pid ?? Pid_le ? V Config ? w task_id t acc timeout results Ht Hacc.
    rewrite (get_training_result_incomplete Pid_le w task_id t acc) by done.
    apply lookup_insert_eq.
  - vm_compute. reflexivity.
Qed.

Lemma merge_last_writer_wins_witness :
  (tasks (demo_world 3) !! 1007 = Some (demo_task 3) ∧
   task_results (demo_world 3) !! 1007 = Some ∅) ∧
  task_results
    (get_training_result String.le 1007 None
       [Some fragment_a; Some fragment_ab] true (demo_world 3)).1 !! 1007
  = Some (merged ∅ [Some fragment_a; Some fragment_ab]).
Proof.
  destruct demo_world_registered as [Ht Hacc]. split; [done|].
  exact (proj1 (proj2 (proj2 merge_last_writer_wins)) string _ _ String.le _
           pynum SimpleConfig _ (demo_world 3) 1007 (demo_task 3) ∅ None
           [Some fragment_a; Some fragment_ab] Ht Hacc).
Defined.

Lemma demo_world_2_registered :
  tasks (demo_world 2) !! 1007 = Some (demo_task 2) ∧
  task_results (demo_world 2) !! 1007 = Some ∅.
Proof. split; vm_compute; reflexivity. Qed.

(** Two workers for three participants: p1 and p2 are paired, p3 is not. *)
Lemma sv_remap_truncates_witness :
  paired (practitioner_ids (demo_task 2)) (worker_number (config (demo_task 2)))
    = 2%nat ∧
  ∃ w' st sv,
    get_training_result String.le 1007 None [Some demo_fragment] false
      (demo_world 2) = (w', Return (Some st)) ∧
    st !! "sv" = Some (Remapped sv) ∧
    ∀ round row, demo_sv !! round = Some row →
      ∃ row', sv !! round = Some row' ∧
        ∀ pid, row' !! pid =
          if decide (pid ∈ practitioner_ids (demo_task 2) ∧
                     (rank String.le (practitioner_ids (demo_task 2)) pid
                      < paired (practitioner_ids (demo_task 2))
                          (worker_number (config (demo_task 2))))%nat)
          then row !! Z.of_nat
                        (rank String.le (practitioner_ids (demo_task 2)) pid)
          else None.
Proof.
  split; [vm_compute; reflexivity|].
  destruct demo_world_2_registered as [Ht Hacc].
  destruct (sv_remap_truncates String.le (demo_world 2) 1007 (demo_task 2) ∅
              None [Some demo_fragment] demo_sv Ht Hacc)
    as (w' & st & sv & Hg & Hsv & _ & Hrows).
  - vm_compute. reflexivity.
  - intros r row Hr. unfold demo_sv in Hr.
    apply lookup_singleton_Some in Hr as [<- <-].
    intros i Hi. vm_compute in Hi.
    destruct i as [|[|i]]; [vm_compute; eauto..|lia].
  - exists w', st, sv. split; [exact Hg|]. split; [exact Hsv|exact Hrows].
Defined.

Lemma completion_cleanup_not_atomic_witness :
  (tasks (demo_world 3) !! 1007 = Some (demo_task 3) ∧
   task_results (demo_world 3) !! 1007 = Some ∅) ∧
  ∃ w',
    get_training_result String.le 1007 None [Some short_fragment] false
      (demo_world 3) = (w', Raise KeyError) ∧
    tasks w' !! 1007 = None ∧
    task_results w' !! 1007 = Some (merged ∅ [Some short_fragment]).
Proof.
  destruct demo_world_registered as [Ht Hacc]. split; [done|].
  apply (proj2 (completion_cleanup_not_atomic String.le (demo_world 3) 1007
                  (demo_task 3) ∅ None [Some short_fragment] Ht Hacc)
           {[ 0 := {[ 0 := PyFloat 0.1; 1 := PyFloat 0.2 ]} ]} 0
           {[ 0 := PyFloat 0.1; 1 := PyFloat 0.2 ]} 2%nat).
  - vm_compute. reflexivity.
  - vm_compute. reflexivity.
  - vm_compute. lia.
  - vm_compute. reflexivity.
Defined.

Lemma train_server_submitted_first_witness :
  ∃ new k,
    trace (train (demo_get_worker_config None) demo_env (demo_config 3)
             (Some demo_practitioners) empty_world).1
      = trace empty_world ++ new ∧
    submitted new =
      (FederatedLearningContext 0%nat, fn_start_server)
      :: replicate k (FederatedLearningContext 0%nat, fn_run_worker).
Proof.
  apply (train_server_submitted_first (demo_get_worker_config None)
           empty_world demo_env (demo_config 3) (Some demo_practitioners)
           0%nat (demo_server_config None)); reflexivity.
Defined.

Lemma train_synchronous_mode_witness :
  ∃ w',
    train (demo_get_worker_config None) demo_env (demo_config 3) None
      empty_world = (w', Return None) ∧
    tasks w' = tasks empty_world ∧ task_results w' = task_results empty_world.
Proof.
  apply (train_synchronous_mode (demo_get_worker_config None) empty_world
           demo_env (demo_config 3) 0%nat (demo_server_config None)
           [replicate 3 demo_worker_config]).
  split_and!; [reflexivity..|]. by repeat constructor.
Defined.

Lemma start_server_fragment_witness :
  start_server (FederatedLearningContext 0%nat)
    (demo_server_config (Some (Table demo_sv))) = Return demo_fragment ∧
  ∃ ctor server st,
    constructor (demo_server_config (Some (Table demo_sv))) = Some ctor ∧
    ctor (FederatedLearningContext 0%nat) = Return server ∧
    start server (server_state server) = Return st ∧
    demo_fragment !! "performance" = Some (performance_stat st) ∧
    demo_fragment !! "sv" = shapley_values (algorithm st) ∧
    (is_Some (demo_fragment !! "sv")
     ↔ hasattr_shapley_values (algorithm st) = true) ∧
    ∀ k, k ≠ "performance" → k ≠ "sv" → demo_fragment !! k = None.
Proof.
  assert (start_server (FederatedLearningContext 0%nat)
            (demo_server_config (Some (Table demo_sv)))
          = Return demo_fragment) as Hs by (vm_compute; reflexivity).
  split; [exact Hs|]. exact (start_server_fragment _ _ _ Hs).
Defined.

Lemma start_workers_spec_witness :
  ∃ ev,
    start_workers (FederatedLearningContext 0%nat)
      [demo_worker_config; demo_worker_config] empty_world =
      ({| tasks := tasks empty_world;
          task_results := task_results empty_world;
          trace := trace empty_world ++ [ev] |}, Return tt) ∧
    ev = Submit (FederatedLearningContext 0%nat)
           (replicate 2 fn_run_worker)
           (KwargsList [demo_worker_config; demo_worker_config]) ∧
    invocations ev =
      [(fn_run_worker, inr demo_worker_config);
       (fn_run_worker, inr demo_worker_config)].
Proof.
  apply (proj2 (start_workers_spec empty_world (FederatedLearningContext 0%nat)
                  [demo_worker_config; demo_worker_config])); done.
Defined.

(** ** More on launching a run *)

Section LaunchMore.

Context {Pid : Type} `{Countable Pid}.
Context {V : Type}.
Context {Config : Type} `{!ConfigOps Config}.

Local Abbreviation world := (@world Pid _ _ V Config).
Local Abbreviation event := (@event V Config).

Lemma world_eta (w : world) :
  {| tasks := tasks w; task_results := task_results w; trace := trace w |} = w.
Proof. by destruct w. Qed.

(** With non-empty batches the loop over the batches submits each of them
    and returns. *)
Lemma start_workers_loop_ok p (batches : list (list (@WorkerConfig))) :
  Forall (λ b, b ≠ []) batches →
  ∀ w : world,
    for_each (λ worker_configs,
      start_workers (FederatedLearningContext p) worker_configs) batches w =
    ({| tasks := tasks w; task_results := task_results w;
        trace := trace w ++ batch_events (FederatedLearningContext p) batches |},
     Return tt).
Proof.
  induction 1 as [|b bs Hb _ IH]; intros w.
  - cbn. unfold pure. by rewrite app_nil_r, world_eta.
  - cbn [for_each]. unfold bind. rewrite start_workers_ok by done.
    rewrite IH. cbn [tasks task_results trace]. by rewrite <- app_assoc.
Qed.

(** The loop stops at the first empty batch: the batches before it are
    submitted, the assertion of [start_workers] fails, nothing else runs. *)
Lemma start_workers_loop_empty p
    (before after : list (list (@WorkerConfig))) :
  Forall (λ b, b ≠ []) before →
  ∀ w : world,
    for_each (λ worker_configs,
      start_workers (FederatedLearningContext p) worker_configs)
      (before ++ [] :: after) w =
    ({| tasks := tasks w; task_results := task_results w;
        trace := trace w ++ batch_events (FederatedLearningContext p) before |},
     Raise AssertionError).
Proof.
  induction 1 as [|b bs Hb _ IH]; intros w.
  - cbn [app for_each]. unfold bind.
    rewrite start_workers_refused by (by right).
    cbn. by rewrite app_nil_r, world_eta.
  - cbn [app for_each]. unfold bind. rewrite start_workers_ok by done.
    rewrite IH. cbn [tasks task_results trace]. by rewrite <- app_assoc.
Qed.

Context (get_worker_config :
  Config → option Z → option (list (@Practitioner Pid)) →
  @worker_config_dict V).

Lemma submit_run_ok (w : world) cfg task_id ps p sc batches :
  derived_ok (get_worker_config cfg task_id ps) p sc batches →
  submit_run get_worker_config cfg task_id ps w =
  ({| tasks := tasks w; task_results := task_results w;
      trace := trace w ++ run_events (FederatedLearningContext p) sc batches |},
   Return (FederatedLearningContext p)).
Proof.
  intros (Hctx & Hsc & Hw & Hne).
  unfold submit_run, bind, assert, emit, pure, raise.
  rewrite Hctx, Hsc, Hw. cbn [isinstance_FederatedLearningContext].
  rewrite (start_workers_loop_ok p batches Hne).
  cbn [tasks task_results trace]. by rewrite <- app_assoc.
Qed.

(** The exact outcome of an asynchronous [train] on a well-formed derived
    configuration. *)
Lemma train_async_ok (w : world) env cfg ps p sc batches :
  derived_ok
    (get_worker_config (reset_session cfg)
       (Some (uuid4_int env + getpid env)) (Some ps)) p sc batches →
  train get_worker_config env cfg (Some ps) w =
  ({| tasks :=
        <[uuid4_int env + getpid env :=
            {| process_pool := p;
               practitioner_ids := list_to_set (practitioner_id <$> ps);
               config := reset_session cfg |}]> (tasks w);
      task_results := <[uuid4_int env + getpid env := ∅]> (task_results w);
      trace := trace w ++ prologue cfg (Some ps)
                 ++ run_events (FederatedLearningContext p) sc batches |},
   Return (Some (uuid4_int env + getpid env))).
Proof.
  intros Hd. unfold train, bind at 1, emit at 1. unfold bind at 1.
  rewrite (submit_run_ok _ _ _ _ p sc batches Hd).
  unfold bind, lift, pure, set_tasks, set_task_results.
  cbn [get_executor_pool tasks task_results trace prologue].
  by rewrite <- app_assoc.
Qed.

(** The exact outcome of a synchronous [train] on a well-formed derived
    configuration. *)
Lemma train_sync_ok (w : world) env cfg p sc batches :
  derived_ok (get_worker_config (reset_session cfg) None None) p sc batches →
  train get_worker_config env cfg None w =
  ({| tasks := tasks w; task_results := task_results w;
      trace := trace w ++ prologue (Pid:=Pid) cfg None
                 ++ run_events (FederatedLearningContext p) sc batches
                 ++ [WaitResults p None; Shutdown p (Some true)] |},
   Return None).
Proof.
  intros Hd. unfold train, bind at 1, emit at 1.
  unfold bind at 1, emit at 1. unfold bind at 1.
  rewrite (submit_run_ok _ _ _ _ p sc batches Hd).
  unfold bind, lift, pure, emit.
  cbn [get_executor_pool tasks task_results trace prologue].
  by rewrite <- !app_assoc.
Qed.

(** X1: an asynchronous [train] on a well-formed derived configuration
    registers exactly the identifier it returns: the record holds the
    context's pool, the set of the participants' identifiers and the reset
    copy of the configuration, the accumulator is empty (whatever was stored
    under that identifier before), and every other identifier keeps its
    entries in both registries. *)
Theorem train_async_registers (w : world) env cfg ps p sc batches :
  derived_ok
    (get_worker_config (reset_session cfg)
       (Some (uuid4_int env + getpid env)) (Some ps)) p sc batches →
  ∃ w',
    train get_worker_config env cfg (Some ps) w
      = (w', Return (Some (uuid4_int env + getpid env))) ∧
    tasks w' !! (uuid4_int env + getpid env) =
      Some {| process_pool := p;
              practitioner_ids := list_to_set (practitioner_id <$> ps);
              config := reset_session cfg |} ∧
    task_results w' !! (uuid4_int env + getpid env) = Some ∅ ∧
    ∀ j, j ≠ uuid4_int env + getpid env →
      tasks w' !! j = tasks w !! j ∧
      task_results w' !! j = task_results w !! j.
Proof.
  intros Hd. eexists. split; [by apply (train_async_ok w env cfg ps p sc batches)|].
  cbn [tasks task_results]. rewrite !lookup_insert_eq. split_and!; [done..|].
  intros j Hj. by rewrite !lookup_insert_ne.
Qed.

(** X2: the calls one [train] makes, in order, on a well-formed derived
    configuration. Asynchronous mode applies the global configuration,
    submits the server and one batch per worker batch, and nothing more: it
    attaches no log file, never waits and never shuts the pool down.
    Synchronous mode attaches the log file right after the global
    configuration and, after the submissions, waits without timeout and
    shuts the pool down with [wait=True]. *)
Theorem train_trace (w : world) env cfg p sc batches :
  (∀ ps,
     derived_ok
       (get_worker_config (reset_session cfg)
          (Some (uuid4_int env + getpid env)) (Some ps)) p sc batches →
     trace (train get_worker_config env cfg (Some ps) w).1 =
     trace w ++
       ApplyGlobalConfig (reset_session cfg)
       :: Submit (FederatedLearningContext p) [fn_start_server]
            (SharedKwargs sc)
       :: batch_events (FederatedLearningContext p) batches) ∧
  (derived_ok (get_worker_config (reset_session cfg) None None)
     p sc batches →
   trace (train get_worker_config env cfg None w).1 =
   trace w ++
     ApplyGlobalConfig (reset_session cfg)
     :: AddFileHandler (log_file (reset_session cfg))
     :: Submit (FederatedLearningContext p) [fn_start_server]
          (SharedKwargs sc)
     :: batch_events (FederatedLearningContext p) batches
     ++ [WaitResults p None; Shutdown p (Some true)]).
Proof.
  split.
  - intros ps Hd. by rewrite (train_async_ok w env cfg ps p sc batches).
  - intros Hd. by rewrite (train_sync_ok w env cfg p sc batches).
Qed.

(** X3: [train] is all or nothing on the registries: whenever it raises,
    in either mode and whatever the derived configuration is, [tasks] and
    [task_results] are what they were, also when the server and some worker
    batches were already submitted. *)
Theorem train_raise_keeps_registries (w w' : world) env cfg ps e :
  train get_worker_config env cfg ps w = (w', Raise e) →
  tasks w' = tasks w ∧ task_results w' = task_results w.
Proof.
  destruct ps as [ps|].
  - unfold train, bind, emit, lift, pure, set_tasks, set_task_results.
    cbn [tasks task_results trace].
    edestruct (submit_run_outcome get_worker_config) as (new & r & -> & _).
    destruct r as [[p|]|e']; cbn; intros [= <- <-]; done.
  - intros He. pose proof (train_sync_frame get_worker_config w env cfg) as Hf.
    rewrite He in Hf. exact Hf.
Qed.

(** The three guards of [train] before the first submission. *)
Lemma submit_run_guards (w : world) cfg task_id ps :
  submit_run get_worker_config cfg task_id ps w =
  match wc_context (get_worker_config cfg task_id ps) with
  | None => (w, Raise KeyError)
  | Some OtherObject => (w, Raise AssertionError)
  | Some (FederatedLearningContext p) =>
    match wc_server (get_worker_config cfg task_id ps) with
    | None => (w, Raise AssertionError)
    | Some sc =>
      match wc_worker (get_worker_config cfg task_id ps) with
      | None =>
        (after_events w
           [Submit (FederatedLearningContext p) [fn_start_server]
              (SharedKwargs sc)],
         Raise KeyError)
      | Some batches =>
        let '(w', r) :=
          for_each (λ worker_configs,
            start_workers (FederatedLearningContext p) worker_configs)
            batches
            (after_events w
               [Submit (FederatedLearningContext p) [fn_start_server]
                  (SharedKwargs sc)]) in
        (w', match r with
             | Return _ => Return (FederatedLearningContext p)
             | Raise e => Raise e
             end)
      end
    end
  end.
Proof.
  unfold submit_run, bind, assert, emit, pure, raise, after_events.
  destruct (wc_context _) as [[p|]|]; cbn; [|done..].
  destruct (wc_server _) as [sc|]; cbn; [|done].
  destruct (wc_worker _) as [batches|]; cbn; [|done].
  destruct (for_each _ _ _) as [w' [[]|e]]; done.
Qed.

(** [train] passes on what the shared part raises, after the prologue. *)
Lemma train_raise_from_submit_run (w w' : world) env cfg ps e :
  submit_run get_worker_config (reset_session cfg)
    match ps with
    | None => None
    | Some _ => Some (uuid4_int env + getpid env)
    end ps (after_events w (prologue cfg ps)) = (w', Raise e) →
  train get_worker_config env cfg ps w = (w', Raise e).
Proof.
  unfold train, after_events, prologue. destruct ps as [ps|].
  - unfold bind at 1, emit at 1. unfold bind at 1. by intros ->.
  - unfold bind at 1, emit at 1. unfold bind at 1, emit at 1.
    unfold bind at 1. cbn [tasks task_results trace].
    rewrite <- app_assoc. cbn [app]. by intros ->.
Qed.

(** X4: the guards of [train] before the first submission. When the derived
    configuration has no ["context"] key [train] raises [KeyError]; when the
    object under that key is not a [FederatedLearningContext], or when there
    is no server configuration, it raises [AssertionError]. In each case
    nothing was submitted, waited for or shut down: the only calls made are
    those of the prologue, and both registries are as before. *)
Theorem train_guard_failures (w : world) env cfg ps :
  (wc_context (derived_config get_worker_config env cfg ps) = None →
   train get_worker_config env cfg ps w
     = (after_events w (prologue cfg ps), Raise KeyError)) ∧
  (wc_context (derived_config get_worker_config env cfg ps)
     = Some OtherObject →
   train get_worker_config env cfg ps w
     = (after_events w (prologue cfg ps), Raise AssertionError)) ∧
  (∀ p,
     wc_context (derived_config get_worker_config env cfg ps)
       = Some (FederatedLearningContext p) →
     wc_server (derived_config get_worker_config env cfg ps) = None →
     train get_worker_config env cfg ps w
       = (after_events w (prologue cfg ps), Raise AssertionError)).
Proof.
  unfold derived_config. split_and!.
  - intros Hc. apply train_raise_from_submit_run.
    rewrite submit_run_guards. by rewrite Hc.
  - intros Hc. apply train_raise_from_submit_run.
    rewrite submit_run_guards. by rewrite Hc.
  - intros p Hc Hs. apply train_raise_from_submit_run.
    rewrite submit_run_guards. by rewrite Hc, Hs.
Qed.

(** X5: failures of [train] after the server was submitted. With a context
    and a server configuration, a derived configuration without the
    ["worker"] key makes [train] raise [KeyError] once the server is
    submitted; an empty worker batch makes it raise [AssertionError] once
    the server and the batches before the empty one are submitted. The
    batches after the empty one are never submitted, the pool is neither
    waited for nor shut down, and no task is registered. *)
Theorem train_late_failures (w : world) env cfg ps p sc :
  wc_context (derived_config get_worker_config env cfg ps)
    = Some (FederatedLearningContext p) →
  wc_server (derived_config get_worker_config env cfg ps) = Some sc →
  (wc_worker (derived_config get_worker_config env cfg ps) = None →
   train get_worker_config env cfg ps w
     = (after_events w
          (prologue cfg ps ++ run_events (FederatedLearningContext p) sc []),
        Raise KeyError)) ∧
  (∀ before after,
     wc_worker (derived_config get_worker_config env cfg ps)
       = Some (before ++ [] :: after) →
     Forall (λ b, b ≠ []) before →
     train get_worker_config env cfg ps w
       = (after_events w
            (prologue cfg ps
               ++ run_events (FederatedLearningContext p) sc before),
          Raise AssertionError)).
Proof.
  unfold derived_config. intros Hc Hs. split.
  - intros Hw. apply train_raise_from_submit_run.
    rewrite submit_run_guards, Hc, Hs, Hw.
    unfold after_events. cbn [tasks task_results trace].
    by rewrite <- app_assoc.
  - intros before after Hw Hne. apply train_raise_from_submit_run.
    rewrite submit_run_guards, Hc, Hs, Hw.
    rewrite (start_workers_loop_empty p before after Hne).
    unfold after_events, run_events. cbn [tasks task_results trace].
    by rewrite <- !app_assoc.
Qed.

(** The scheduled invocations of the batch submissions: one [run_worker]
    per worker configuration, in the order of the flattened batches. *)
Lemma invocations_batch_events (ctx : context)
    (batches : list (list (@WorkerConfig))) :
  concat (invocations <$> (batch_events ctx batches : list event)) =
  (λ c, (fn_run_worker, inr c)) <$> concat batches.
Proof.
  induction batches as [|b bs IH]; [done|].
  cbn [batch_events fmap list_fmap concat invocations].
  unfold batch_events in IH. rewrite IH, fmap_app. f_equal.
  clear. induction b as [|c b IH]; [done|]. cbn. by f_equal.
Qed.

(** X6: on a well-formed derived configuration, in either mode, what one
    [train] call schedules is [start_server] with the server configuration
    followed by exactly one [run_worker] per worker configuration, each
    with its own configuration, in the order of the batches and of the
    configurations inside each batch. *)
Theorem train_invocations (w : world) env cfg ps p sc batches :
  derived_ok (derived_config get_worker_config env cfg ps) p sc batches →
  ∃ new,
    trace (train get_worker_config env cfg ps w).1 = trace w ++ new ∧
    concat (invocations <$> new) =
      (fn_start_server, inl sc)
      :: ((λ c, (fn_run_worker, inr c)) <$> concat batches).
Proof.
  unfold derived_config. intros Hd. destruct ps as [ps|].
  - rewrite (train_async_ok w env cfg ps p sc batches Hd).
    eexists. split; [reflexivity|].
    unfold prologue, run_events. cbn [app fmap list_fmap concat invocations].
    by rewrite invocations_batch_events.
  - rewrite (train_sync_ok w env cfg p sc batches Hd).
    eexists. split; [reflexivity|].
    unfold prologue, run_events. cbn [app fmap list_fmap concat invocations].
    rewrite fmap_app, concat_app, invocations_batch_events.
    cbn. by rewrite app_nil_r.
Qed.

End LaunchMore.

(** ** Task identifiers *)

Section TaskIdentifiers.

Context {Pid : Type} `{Countable Pid}.
Context {V : Type}.
Context {Config : Type} `{!ConfigOps Config}.

Local Abbreviation world := (@world Pid _ _ V Config).

Context (get_worker_config :
  Config → option Z → option (list (@Practitioner Pid)) →
  @worker_config_dict V).




End TaskIdentifiers.

(** ** More on the result collector *)

Section CollectorMore.

Context {Pid : Type} `{Countable Pid}.
Context (Pid_le : relation Pid).
Context `{!RelDecision Pid_le, !PartialOrder Pid_le, !Total Pid_le}.
Context {V : Type}.
Context {Config : Type} `{!ConfigOps Config}.

Local Abbreviation world := (@world Pid _ _ V Config).
Local Abbreviation task := (@task Pid _ _ Config).
Local Abbreviation fragment := (gmap string (@metric V)).
Local Abbreviation stats := (gmap string (@stat Pid _ _ V)).

(** Without an accumulator the merge loop changes nothing: it returns when
    no unit answered a fragment and raises at the first fragment. *)
Lemma merge_loop_unregistered (task_id : Z) (results : list (option fragment)) :
  ∀ w : world, task_results w !! task_id = None →
  ∃ r,
    for_each (λ result,
      match result with
      | Some r => merge_result task_id r
      | None => pure tt
      end) results w = (w, r).
Proof.
  induction results as [|[r|] results IH]; intros w Hn; cbn [for_each].
  - by eexists.
  - unfold bind, merge_result at 1, bind, getitem. rewrite Hn. by eexists.
  - unfold bind, pure at 1. by apply IH.
Qed.

(** A call for a task without an accumulator leaves [task_results] alone
    and at most removes the task from [tasks]. *)
Lemma get_training_result_no_accumulator (w : world) task_id t timeout results
    not_done :
  tasks w !! task_id = Some t → task_results w !! task_id = None →
  ∃ w' r,
    get_training_result Pid_le task_id timeout results not_done w = (w', r) ∧
    (tasks w' = tasks w ∨ tasks w' = delete task_id (tasks w)) ∧
    task_results w' = task_results w.
Proof.
  intros Ht Hacc. unfold get_training_result, bind at 1, getitem.
  rewrite Ht. unfold bind at 1, emit at 1. unfold bind at 1.
  edestruct (merge_loop_unregistered task_id results) as [r ->];
    [exact Hacc|].
  destruct r as [[]|e]; [|eexists _, _; split; [reflexivity|split; [by left|done]]].
  destruct not_done; [eexists _, _; split; [reflexivity|split; [by left|done]]|].
  unfold bind, emit, set_tasks, set_task_results, pop, lift, pure, getitem.
  cbn [tasks task_results trace]. rewrite Ht.
  cbn [tasks task_results trace]. rewrite Hacc.
  eexists _, _; split; [reflexivity|split; [by right|done]].
Qed.

(** X7: [get_training_result] touches no other task: whatever the call
    does (unknown identifier, poll, completion, failure of the
    post-processing), every other identifier keeps its entries in [tasks]
    and in [task_results]. *)
Theorem get_training_result_frame (w : world) task_id timeout results
    not_done j :
  j ≠ task_id →
  tasks (get_training_result Pid_le task_id timeout results not_done w).1 !! j
    = tasks w !! j ∧
  task_results
    (get_training_result Pid_le task_id timeout results not_done w).1 !! j
    = task_results w !! j.
Proof.
  intros Hj.
  destruct (tasks w !! task_id) as [t|] eqn:Ht;
    [|by rewrite get_training_result_unknown].
  destruct (task_results w !! task_id) as [acc|] eqn:Hacc.
  - destruct not_done.
    + rewrite (get_training_result_incomplete _ w task_id t acc) by done.
      cbn [fst tasks task_results]. by rewrite lookup_insert_ne.
    + rewrite (get_training_result_complete _ w task_id t acc) by done.
      cbn zeta. destruct (for_items _ _); cbn [fst tasks task_results];
        rewrite ?lookup_delete_ne, ?lookup_insert_ne; done.
  - destruct (get_training_result_no_accumulator w task_id t timeout results
                not_done Ht Hacc) as (w' & r & -> & [Hw | Hw] & Hr);
      cbn [fst]; rewrite Hw, Hr; by rewrite ?lookup_delete_ne.
Qed.

Lemma for_items_dom `{Countable K} {A B} (g : K → A → result B)
    (d : gmap K A) out :
  for_items g d = Return out → dom out = dom d.
Proof.
  intros Hr. apply set_eq. intros k. rewrite !elem_of_dom.
  rewrite (for_items_Return g d out Hr k).
  destruct (d !! k) as [x|] eqn:E; cbn.
  - destruct (for_items_Return_ok g d out k x Hr E) as (y & -> & _).
    cbn. split; eauto.
  - split; intros [? ?]; done.
Qed.

(** X8: the stats a completed run returns hold exactly the metric names of
    the accumulated fragment, none dropped and none added; and the rebuilt
    ["sv"] table holds exactly the round numbers of the accumulated one. *)
Theorem stats_keys (w w' : world) task_id t acc timeout results st :
  tasks w !! task_id = Some t → task_results w !! task_id = Some acc →
  get_training_result Pid_le task_id timeout results false w
    = (w', Return (Some st)) →
  dom st = dom (merged acc results) ∧
  ∀ orig, merged acc results !! "sv" = Some (Table orig) →
    ∃ sv, st !! "sv" = Some (Remapped sv) ∧ dom sv = dom orig.
Proof.
  intros Ht Hacc Hg.
  destruct (complete_Return _ w w' task_id t acc timeout results st Ht Hacc Hg)
    as (Hst & _).
  split; [by eapply for_items_dom|].
  intros orig Ho.
  destruct (post_process_Return _ _ _ _ _ Hst) as (_ & _ & Hsv).
  destruct (Hsv orig Ho) as (sv & Hs & Hr).
  exists sv. split; [done|]. by eapply for_items_dom.
Qed.

(** X9: the pool calls of one [get_training_result] on a registered task.
    A poll that finds work left only waits, with the caller's timeout; a
    poll that finds the work done waits and then shuts the pool down with
    the default arguments, and it does so before the post-processing, hence
    also when the post-processing raises. *)
Theorem collector_pool_calls (w : world) task_id t acc timeout results :
  tasks w !! task_id = Some t → task_results w !! task_id = Some acc →
  trace (get_training_result Pid_le task_id timeout results true w).1
    = trace w ++ [WaitResults (process_pool t) timeout] ∧
  trace (get_training_result Pid_le task_id timeout results false w).1
    = trace w ++ [WaitResults (process_pool t) timeout;
                  Shutdown (process_pool t) None].
Proof.
  intros Ht Hacc. split.
  - by rewrite (get_training_result_incomplete _ w task_id t acc).
  - rewrite (get_training_result_complete _ w task_id t acc) by done.
    cbn zeta. by destruct (for_items _ _).
Qed.

Lemma merged_app (acc : fragment) (r1 r2 : list (option fragment)) :
  merged acc (r1 ++ r2) = merged (merged acc r1) r2.
Proof. unfold merged. by rewrite foldl_app. Qed.

(** X10: polls compose. After a poll that merged the fragments [r1] and
    found work left, a second call with the fragments [r2] answers what a
    single call with [r1 ++ r2] answers on the original state, and leaves
    the same registries; only the pool was waited for once more. *)
Theorem polls_compose (w : world) task_id t acc timeout1 timeout2 r1 r2
    not_done :
  tasks w !! task_id = Some t → task_results w !! task_id = Some acc →
  let w1 := (get_training_result Pid_le task_id timeout1 r1 true w).1 in
  let two := get_training_result Pid_le task_id timeout2 r2 not_done w1 in
  let one :=
    get_training_result Pid_le task_id timeout2 (r1 ++ r2) not_done w in
  two.2 = one.2 ∧ tasks two.1 = tasks one.1 ∧
  task_results two.1 = task_results one.1.
Proof.
  intros Ht Hacc. cbn zeta.
  rewrite (get_training_result_incomplete _ w task_id t acc timeout1) by done.
  cbn [fst]. destruct not_done.
  - rewrite (get_training_result_incomplete _ _ task_id t (merged acc r1))
      by (cbn [tasks task_results]; first [done|apply lookup_insert_eq]).
    rewrite (get_training_result_incomplete _ w task_id t acc) by done.
    cbn [fst snd tasks task_results].
    by rewrite merged_app, insert_insert_eq.
  - rewrite (get_training_result_complete _ _ task_id t (merged acc r1))
      by (cbn [tasks task_results]; first [done|apply lookup_insert_eq]).
    rewrite (get_training_result_complete _ w task_id t acc) by done.
    cbn zeta. rewrite merged_app.
    destruct (for_items _ _); cbn [fst snd tasks task_results];
      by rewrite ?delete_insert_eq, ?insert_insert_eq.
Qed.

Lemma post_process_no_sv (ids : gset Pid) n (acc : fragment) :
  acc !! "sv" = None →
  for_items (post_process Pid_le ids n) acc = Return (Copied <$> acc).
Proof.
  intros Hn.
  destruct (post_process_total Pid_le ids n acc) as [st Hst].
  { intros v Hv. congruence. }
  rewrite Hst. f_equal. apply map_eq. intros k.
  destruct (post_process_Return _ _ _ _ _ Hst) as (Ho & Hs & _).
  rewrite lookup_fmap. destruct (decide (k = "sv")) as [->|Hk].
  - by rewrite Hs, Hn.
  - by apply Ho.
Qed.

(** X11: a run without attribution values. When the accumulated fragment
    has no ["sv"] key the completing call cannot fail: it returns the
    accumulated fragment itself, every metric copied unchanged, and removes
    the task from both registries. *)
Theorem completion_without_sv (w : world) task_id t acc timeout results :
  tasks w !! task_id = Some t → task_results w !! task_id = Some acc →
  merged acc results !! "sv" = None →
  get_training_result Pid_le task_id timeout results false w =
  ({| tasks := delete task_id (tasks w);
      task_results := delete task_id (task_results w);
      trace := trace w ++ [WaitResults (process_pool t) timeout;
                           Shutdown (process_pool t) None] |},
   Return (Some (Copied <$> merged acc results))).
Proof.
  intros Ht Hacc Hn.
  rewrite (get_training_result_complete _ w task_id t acc) by done.
  cbn zeta. by rewrite post_process_no_sv.
Qed.

Lemma merged_None (acc : fragment) k : merged acc (replicate k None) = acc.
Proof. unfold merged. induction k as [|k IH]; [done|]. exact IH. Qed.

(** X12: from the server to the stats. When the server of a registered task
    with an empty accumulator ran to its end with an algorithm that has no
    [shapley_values], and the pool answers the fragment [start_server]
    returned together with the [None] of any number of workers, in any
    position, the completing call returns exactly the server's performance
    under ["performance"]. *)
Theorem server_performance_collected (w : world) task_id t timeout ctx
    (sc : @ServerConfig V) ctor server st res (a b : nat) :
  tasks w !! task_id = Some t → task_results w !! task_id = Some ∅ →
  constructor sc = Some ctor → ctor ctx = Return server →
  start server (server_state server) = Return st →
  shapley_values (algorithm st) = None →
  start_server ctx sc = Return res →
  (get_training_result Pid_le task_id timeout
     (replicate a None ++ Some res :: replicate b None) false w).2
  = Return (Some {["performance" := Copied (performance_stat st)]}).
Proof.
  intros Ht Hacc Hc Hs Hst Hsv Hres.
  assert (res = {["performance" := performance_stat st]}) as ->.
  { unfold start_server in Hres. rewrite Hc in Hres. cbn in Hres.
    rewrite Hs in Hres. cbn in Hres. rewrite Hst in Hres. cbn in Hres.
    rewrite Hsv in Hres. injection Hres as <-.
    unfold dict_ior. by rewrite (right_id_L ∅ (∪)). }
  assert (merged (∅ : fragment)
            (replicate a None
               ++ Some {["performance" := performance_stat st]}
               :: replicate b None)
          = {["performance" := performance_stat st]}) as Hm.
  { rewrite merged_app, merged_None. cbn. unfold merged in *.
    change (foldl _ ?x (replicate b None)) with (merged x (replicate b None)).
    rewrite merged_None. unfold dict_ior. by rewrite (right_id_L ∅ (∪)). }
  rewrite (get_training_result_complete _ w task_id t ∅) by done.
  cbn zeta. rewrite Hm, post_process_no_sv by done.
  cbn [snd]. by rewrite map_fmap_singleton.
Qed.

Lemma StronglySorted_lookup_le (l : list Pid) (a b : nat) x y :
  StronglySorted Pid_le l → l !! a = Some x → l !! b = Some y →
  (a < b)%nat → Pid_le x y.
Proof.
  intros Hs Ha Hb Hab.
  rewrite <- (take_drop_middle l b y Hb) in Hs.
  eapply StronglySorted_app_1_elem_of; [exact Hs| |left].
  apply (list_elem_of_lookup_2 _ a). by rewrite lookup_take_lt.
Qed.

Lemma rank_lt_strict (ids : gset Pid) pid q :
  pid ∈ ids → q ∈ ids →
  (rank Pid_le ids pid < rank Pid_le ids q)%nat ↔ strict Pid_le pid q.
Proof.
  intros Hp Hq.
  pose proof (sorted_lookup_rank Pid_le ids pid Hp) as Lp.
  pose proof (sorted_lookup_rank Pid_le ids q Hq) as Lq.
  pose proof (sorted_StronglySorted Pid_le ids) as Hs.
  assert (∀ x y, x ∈ ids → y ∈ ids →
            (rank Pid_le ids x < rank Pid_le ids y)%nat → strict Pid_le x y)
    as Hmono.
  { intros x y Hx Hy Hlt.
    pose proof (sorted_lookup_rank Pid_le ids x Hx) as Lx.
    pose proof (sorted_lookup_rank Pid_le ids y Hy) as Ly.
    pose proof (StronglySorted_lookup_le _ _ _ _ _ Hs Lx Ly Hlt) as Hle.
    split; [done|]. intros Hyx.
    assert (x = y) as -> by (by apply (anti_symm Pid_le)). lia. }
  split; [by apply Hmono|].
  intros [Hle Hnle].
  destruct (Nat.lt_trichotomy (rank Pid_le ids pid) (rank Pid_le ids q))
    as [?|[Heq|Hgt]]; [done| |].
  - rewrite Heq in Lp. assert (pid = q) as -> by congruence.
    by destruct Hnle.
  - destruct (Hmono q pid Hq Hp Hgt) as [? ?]. done.
Qed.

Context (get_worker_config :
  Config → option Z → option (list (@Practitioner Pid)) →
  @worker_config_dict V).

(** X14: an asynchronous [train] followed by the completing
    [get_training_result] is a round trip on the registries. When the
    minted identifier was not in use and the fragments the pool answers can
    be post-processed, the call returns the stats built from those fragments
    alone (the accumulator started empty) for the participants and the
    worker number of the reset configuration, and [tasks] and
    [task_results] are exactly what they were before [train]. *)
Theorem train_then_collect (w : world) env cfg ps p sc batches timeout
    results :
  derived_ok
    (get_worker_config (reset_session cfg)
       (Some (uuid4_int env + getpid env)) (Some ps)) p sc batches →
  tasks w !! (uuid4_int env + getpid env) = None →
  task_results w !! (uuid4_int env + getpid env) = None →
  remappable (list_to_set (practitioner_id <$> ps))
    (worker_number (reset_session cfg)) (merged ∅ results) →
  ∃ w2 st,
    get_training_result Pid_le (uuid4_int env + getpid env) timeout results
      false (train get_worker_config env cfg (Some ps) w).1
      = (w2, Return (Some st)) ∧
    for_items
      (post_process Pid_le (list_to_set (practitioner_id <$> ps))
         (worker_number (reset_session cfg)))
      (merged ∅ results) = Return st ∧
    tasks w2 = tasks w ∧ task_results w2 = task_results w.
Proof.
  intros Hd Ht Hr Hrem.
  rewrite (train_async_ok get_worker_config w env cfg ps p sc batches Hd).
  cbn [fst].
  destruct (post_process_total Pid_le _ _ _ Hrem) as [st Hst].
  rewrite (get_training_result_complete _ _ _
             {| process_pool := p;
                practitioner_ids := list_to_set (practitioner_id <$> ps);
                config := reset_session cfg |} ∅)
    by (cbn [tasks task_results]; apply lookup_insert_eq).
  cbn zeta. cbn [practitioner_ids config process_pool tasks task_results].
  rewrite Hst. eexists _, _. split; [reflexivity|].
  split; [done|]. cbn [tasks task_results].
  by rewrite !delete_insert_id.
Qed.

End CollectorMore.

(** ** The slot of a participant *)

Section SlotAssignment.

Context {Pid : Type} `{Countable Pid}.
Context (Pid_le : relation Pid).
Context `{!RelDecision Pid_le, !PartialOrder Pid_le, !Total Pid_le}.
Context {V : Type}.
Context {Config : Type} `{!ConfigOps Config}.

Local Abbreviation world := (@world Pid _ _ V Config).
Local Abbreviation fragment := (gmap string (@metric V)).
Local Abbreviation stats := (gmap string (@stat Pid _ _ V)).

(** X13: the worker slot the remap of a completed run reads for a
    participant. There is one assignment of slots to participants, the same
    in every round, such that each rebuilt round gives a participant the
    value of its slot when that slot is below the worker number, and no
    entry otherwise; the assignment is order-preserving (a participant with
    a smaller identifier has a smaller slot, so no two participants share a
    slot) and it uses exactly the slots below the number of participants. *)
Theorem remap_slot_assignment (w w' : world) task_id t acc timeout results
    (st : stats) orig :
  tasks w !! task_id = Some t → task_results w !! task_id = Some acc →
  merged acc results !! "sv" = Some (Table orig) →
  get_training_result Pid_le task_id timeout results false w
    = (w', Return (Some st)) →
  ∃ (slot : Pid → nat) sv,
    st !! "sv" = Some (Remapped sv) ∧
    (∀ round row, orig !! round = Some row →
       ∃ row', sv !! round = Some row' ∧
         ∀ pid, row' !! pid =
           if decide (pid ∈ practitioner_ids t ∧
                      Z.of_nat (slot pid) < worker_number (config t))
           then row !! Z.of_nat (slot pid) else None) ∧
    (∀ pid q, pid ∈ practitioner_ids t → q ∈ practitioner_ids t →
       (slot pid < slot q)%nat ↔ strict Pid_le pid q) ∧
    (∀ i : nat,
       (i < size (practitioner_ids t))%nat ↔
       ∃ pid, pid ∈ practitioner_ids t ∧ slot pid = i).
Proof.
  intros Ht Hacc Hsv Hg.
  destruct (complete_Return _ w w' task_id t acc timeout results st Ht Hacc Hg)
    as (Hst & _).
  destruct (post_process_Return _ _ _ _ _ Hst) as (_ & _ & Htab).
  destruct (Htab orig Hsv) as (sv & Hs & Hrounds).
  destruct (remap_rounds_Return _ _ _ _ _ Hrounds) as [_ Hrow].
  exists (rank Pid_le (practitioner_ids t)), sv. split_and!; [done| | |].
  - intros round row Hr. destruct (Hrow round row Hr) as (row' & Hr' & Hremap).
    exists row'. split; [done|]. intros pid.
    rewrite (remap_round_Return _ _ _ _ _ Hremap pid).
    apply decide_ext. unfold paired. split.
    + intros [Hin Hlt]. split; [done|]. lia.
    + intros [Hin Hlt]. split; [done|].
      pose proof (rank_lt_size Pid_le _ _ Hin). lia.
  - intros pid q Hp Hq. by apply rank_lt_strict.
  - intros i. split.
    + intros Hi.
      destruct (lookup_lt_is_Some_2 (sorted Pid_le (practitioner_ids t)) i)
        as [pid Hpid]; [by rewrite length_sorted|].
      apply sorted_lookup_inv in Hpid as [Hin ->]; [|done..].
      by exists pid.
    + intros (pid & Hin & <-). by apply rank_lt_size.
Qed.

End SlotAssignment.

(** ** The optimizer utilities *)

Section ModelUtil.

Import model.

Lemma starts_with_spec (k s : string) :
  starts_with k s = true ↔ ∃ post, s = k +:+ post.
Proof.
  revert s. induction k as [|a k IH]; intros s; cbn.
  - split; [by exists s|done].
  - destruct s as [|b s].
    + split; [done|]. by intros (post & ?).
    + rewrite andb_true_iff, bool_decide_eq_true, IH. split.
      * intros (-> & post & ->). by exists post.
      * intros (post & [= -> ->]). split; [done|by exists post].
Qed.

(** [str_in] is the substring test of Python's [in] on strings. *)
Lemma str_in_spec (k s : string) :
  str_in k s = true ↔ ∃ pre post, s = pre +:+ k +:+ post.
Proof.
  induction s as [|b s IH]; cbn [str_in];
    rewrite orb_true_iff, starts_with_spec.
  - split.
    + intros [(post & ->)|?]; [by exists "", post|done].
    + intros (pre & post & Hs). left. exists post.
      destruct pre; [done|discriminate].
  - rewrite IH. split.
    + intros [(post & ->)|(pre & post & ->)].
      * by exists "", post.
      * by exists (String b pre), post.
    + intros (pre & post & Hs). destruct pre as [|c pre].
      * left. by exists post.
      * right. injection Hs as -> ->. by exists pre, post.
Qed.

Context {PV : Type}.
Context {PK : Type} `{Countable PK} {PS : Type}.
Context {Model : Type}.
Context {TensorDict : Type}.

Local Abbreviation Optimizer := (@Optimizer PV PK _ _ PS).
Local Abbreviation Trainer := (@Trainer PV PK _ _ PS Model).

Lemma reuse_loop (l : list (string * PV)) :
  ∀ (g : gmap string PV) gs (s : gmap PK PS),
    for_each (λ '(k, v),
      if negb (str_in k "params") then set_first_group k v else pure tt) l
      {| param_groups := g :: gs; state := s |} =
    ({| param_groups := foldl reuse g l :: gs; state := s |}, Return tt).
Proof.
  induction l as [|[k v] l IH]; intros g gs s; [done|].
  cbn [for_each foldl]. unfold bind, reuse at 2. cbn [fst snd].
  destruct (str_in k "params"); cbn [negb].
  - unfold pure at 1. apply IH.
  - unfold set_first_group at 1. cbn [param_groups state]. apply IH.
Qed.

Lemma foldl_reuse_lookup (l : list (string * PV)) :
  NoDup l.*1 →
  ∀ (g : gmap string PV) k,
    foldl reuse g l !! k =
    match (if str_in k "params" then None
           else (list_to_map l : gmap string PV) !! k) with
    | Some v => Some v
    | None => g !! k
    end.
Proof.
  induction l as [|[k0 v0] l IH]; intros Hnd g k.
  - cbn [foldl list_to_map foldr]. rewrite lookup_empty.
    by destruct (str_in k "params").
  - rewrite fmap_cons, NoDup_cons in Hnd. destruct Hnd as [Hk0 Hnd].
    cbn [foldl fst] in *.
    rewrite (IH Hnd). cbn [list_to_map foldr]. unfold reuse. cbn [fst snd].
    destruct (str_in k "params") eqn:Ek.
    + destruct (str_in k0 "params") eqn:Ek0; cbn [negb]; [done|].
      rewrite lookup_insert_ne; [done|]. intros ->. congruence.
    + destruct (decide (k = k0)) as [->|Hne].
      * rewrite Ek. cbn [negb].
        rewrite (not_elem_of_list_to_map_1 l k0 Hk0).
        by rewrite !lookup_insert_eq.
      * rewrite (lookup_insert_ne (list_to_map l)) by done.
        destruct (list_to_map l !! k); [done|].
        destruct (str_in k0 "params"); cbn [negb]; [done|].
        by rewrite lookup_insert_ne.
Qed.

(** The group the loop leaves: a key of the old group that is not a
    substring of ["params"] takes the old value, every other key keeps the
    value of the fresh group. *)
Lemma reused_group_lookup (old g' : gmap string PV) :
  (∀ k v, old !! k = Some v →
     (¬ ∃ pre post, "params" = pre +:+ k +:+ post) →
     foldl reuse g' (map_to_list old) !! k = Some v) ∧
  (∀ k, old !! k = None ∨ (∃ pre post, "params" = pre +:+ k +:+ post) →
     foldl reuse g' (map_to_list old) !! k = g' !! k).
Proof.
  split.
  - intros k v Hk Hn.
    rewrite foldl_reuse_lookup by apply NoDup_fst_map_to_list.
    rewrite list_to_map_to_list, Hk.
    destruct (str_in k "params") eqn:E; [|done].
    apply str_in_spec in E. by destruct Hn.
  - intros k Hk.
    rewrite foldl_reuse_lookup by apply NoDup_fst_map_to_list.
    rewrite list_to_map_to_list.
    destruct (str_in k "params") eqn:E; [done|].
    destruct Hk as [-> | Hs]; [done|].
    apply str_in_spec in Hs. congruence.
Qed.

Context (parameters : Model → PV).
Context (add_param_group : gmap string PV → M Optimizer unit).

Lemma reset_refused (tr : Trainer) params :
  length (param_groups (optimizer tr)) ≠ 1%nat →
  reset_optimizer_parameters parameters add_param_group params tr
    = (tr, Raise AssertionError).
Proof.
  intros Hl. unfold reset_optimizer_parameters, on_optimizer, bind, assert.
  rewrite bool_decide_eq_false_2 by done. by destruct tr.
Qed.

Lemma reset_ok (tr : Trainer) params old g' gs' s' :
  param_groups (optimizer tr) = [old] →
  add_param_group
    {["params" := default (parameters (model tr)) params]}
    {| param_groups := []; state := ∅ |}
    = ({| param_groups := g' :: gs'; state := s' |}, Return tt) →
  reset_optimizer_parameters parameters add_param_group params tr =
  ({| optimizer :=
        {| param_groups := foldl reuse g' (map_to_list old) :: gs';
           state := s' |};
      model := model tr |}, Return tt).
Proof.
  intros Hg Ha.
  unfold reset_optimizer_parameters, on_optimizer, bind, assert,
    clear_param_groups, clear_state.
  rewrite Hg. cbn [length bool_decide param_groups state].
  rewrite bool_decide_eq_true_2 by done. unfold pure at 1 2.
  cbn [param_groups state].
  destruct params as [p|]; unfold default in Ha; cbn [from_option id] in Ha;
    rewrite Ha;
    by rewrite reuse_loop.
Qed.

(** X15: [reset_optimizer_parameters]. With an optimizer that does not
    have exactly one parameter group it raises [AssertionError] and nothing
    was cleared. With exactly one group, once [add_param_group] has
    installed the fresh group for the given parameters (those of the model
    when none are given) on the emptied optimizer, every key of the old
    group that is not a substring of ["params"] is copied onto the fresh
    group with its old value, every other key keeps the value of the fresh
    group, and the state is the one [add_param_group] left of the cleared
    state. *)
Theorem reset_optimizer_parameters_spec (tr : Trainer) params :
  (length (param_groups (optimizer tr)) ≠ 1%nat →
   reset_optimizer_parameters parameters add_param_group params tr
     = (tr, Raise AssertionError)) ∧
  (∀ old g' gs' s',
     param_groups (optimizer tr) = [old] →
     add_param_group
       {["params" := default (parameters (model tr)) params]}
       {| param_groups := []; state := ∅ |}
       = ({| param_groups := g' :: gs'; state := s' |}, Return tt) →
     ∃ g,
       reset_optimizer_parameters parameters add_param_group params tr =
         ({| optimizer := {| param_groups := g :: gs'; state := s' |};
             model := model tr |}, Return tt) ∧
       (∀ k v, old !! k = Some v →
          (¬ ∃ pre post, "params" = pre +:+ k +:+ post) →
          g !! k = Some v) ∧
       (∀ k, old !! k = None ∨ (∃ pre post, "params" = pre +:+ k +:+ post) →
          g !! k = g' !! k)).
Proof.
  split; [apply reset_refused|].
  intros old g' gs' s' Hg Ha. eexists. split; [by apply reset_ok|].
  apply reused_group_lookup.
Qed.

Context (model_util_load_parameter_dict : TensorDict → M Model unit).
Context (trainer_load_parameter_dict : TensorDict → M Trainer unit).
Context (disable_running_stats : M Model unit).

(** X16: [load_parameters] with [reuse_learning_rate]. The parameters are
    loaded first, and the optimizer is rebuilt over the parameters of the
    model as it is after loading; the hyper-parameters of the old group
    (every key that is not a substring of ["params"]) are carried over; the
    running statistics are disabled last, on the loaded model. *)
Theorem load_parameters_reuse (tr : Trainer) parameter_dict m1 old g' gs' s' :
  model_util_load_parameter_dict parameter_dict (model tr)
    = (m1, Return tt) →
  param_groups (optimizer tr) = [old] →
  add_param_group {["params" := parameters m1]}
    {| param_groups := []; state := ∅ |}
    = ({| param_groups := g' :: gs'; state := s' |}, Return tt) →
  ∃ g,
    load_parameters parameters add_param_group model_util_load_parameter_dict
      trainer_load_parameter_dict disable_running_stats parameter_dict true tr
    = ({| optimizer := {| param_groups := g :: gs'; state := s' |};
          model := (disable_running_stats m1).1 |},
       (disable_running_stats m1).2) ∧
    (∀ k v, old !! k = Some v →
       (¬ ∃ pre post, "params" = pre +:+ k +:+ post) →
       g !! k = Some v) ∧
    (∀ k, old !! k = None ∨ (∃ pre post, "params" = pre +:+ k +:+ post) →
       g !! k = g' !! k).
Proof.
  intros Hl Hg Ha. eexists. split; [|apply reused_group_lookup].
  unfold load_parameters, bind at 1. unfold bind at 1.
  unfold on_model at 1. rewrite Hl.
  rewrite (reset_ok _ None old g' gs' s') by done.
  unfold on_model. cbn [model optimizer].
  by destruct (disable_running_stats m1).
Qed.

(** X17: failures of [load_parameters] with [reuse_learning_rate]. When
    loading the parameters raises, the optimizer is untouched and nothing
    else runs. When the parameters are loaded and the optimizer does not
    have exactly one parameter group, [AssertionError] is raised with the
    parameters loaded, the optimizer untouched and the running statistics
    not disabled. *)
Theorem load_parameters_reuse_failures (tr : Trainer) parameter_dict m1 :
  (∀ e,
     model_util_load_parameter_dict parameter_dict (model tr)
       = (m1, Raise e) →
     load_parameters parameters add_param_group model_util_load_parameter_dict
       trainer_load_parameter_dict disable_running_stats parameter_dict true
       tr
     = ({| optimizer := optimizer tr; model := m1 |}, Raise e)) ∧
  (model_util_load_parameter_dict parameter_dict (model tr)
     = (m1, Return tt) →
   length (param_groups (optimizer tr)) ≠ 1%nat →
   load_parameters parameters add_param_group model_util_load_parameter_dict
     trainer_load_parameter_dict disable_running_stats parameter_dict true tr
   = ({| optimizer := optimizer tr; model := m1 |}, Raise AssertionError)).
Proof.
  split.
  - intros e Hl. unfold load_parameters, bind at 1. unfold bind at 1.
    unfold on_model at 1. by rewrite Hl.
  - intros Hl Hn. unfold load_parameters, bind at 1. unfold bind at 1.
    unfold on_model at 1. rewrite Hl.
    by rewrite reset_refused.
Qed.

End ModelUtil.

(** ** The further properties on the concrete run *)

Lemma demo_derived_ok task_id ps :
  derived_ok (demo_get_worker_config None (reset_session (demo_config 3))
                task_id ps)
    0%nat (demo_server_config None) [replicate 3 demo_worker_config].
Proof. split_and!; [reflexivity..|]. by repeat constructor. Qed.

Lemma train_async_registers_witness :
  ∃ w',
    train (demo_get_worker_config None) demo_env (demo_config 3)
      (Some demo_practitioners) empty_world
      = (w', Return (Some (uuid4_int demo_env + getpid demo_env))) ∧
    tasks w' !! (uuid4_int demo_env + getpid demo_env) =
      Some {| process_pool := 0%nat;
              practitioner_ids :=
                list_to_set (practitioner_id <$> demo_practitioners);
              config := reset_session (demo_config 3) |} ∧
    task_results w' !! (uuid4_int demo_env + getpid demo_env) = Some ∅ ∧
    ∀ j, j ≠ uuid4_int demo_env + getpid demo_env →
      tasks w' !! j = tasks empty_world !! j ∧
      task_results w' !! j = task_results empty_world !! j.
Proof.
  apply (train_async_registers (demo_get_worker_config None) empty_world
           demo_env (demo_config 3) demo_practitioners 0%nat
           (demo_server_config None) [replicate 3 demo_worker_config]).
  apply demo_derived_ok.
Defined.

Lemma train_trace_witness :
  trace (train (demo_get_worker_config None) demo_env (demo_config 3)
           (Some demo_practitioners) empty_world).1 =
  trace empty_world ++
    ApplyGlobalConfig (reset_session (demo_config 3))
    :: Submit (FederatedLearningContext 0%nat) [fn_start_server]
         (SharedKwargs (demo_server_config None))
    :: batch_events (FederatedLearningContext 0%nat)
         [replicate 3 demo_worker_config] ∧
  trace (train (demo_get_worker_config None) demo_env (demo_config 3) None
           empty_world).1 =
  trace empty_world ++
    ApplyGlobalConfig (reset_session (demo_config 3))
    :: AddFileHandler (log_file (reset_session (demo_config 3)))
    :: Submit (FederatedLearningContext 0%nat) [fn_start_server]
         (SharedKwargs (demo_server_config None))
    :: batch_events (FederatedLearningContext 0%nat)
         [replicate 3 demo_worker_config]
    ++ [WaitResults 0%nat None; Shutdown 0%nat (Some true)].
Proof.
  destruct (train_trace (demo_get_worker_config None) empty_world demo_env
              (demo_config 3) 0%nat (demo_server_config None)
              [replicate 3 demo_worker_config]) as [Ha Hs].
  split.
  - apply (Ha demo_practitioners). apply demo_derived_ok.
  - apply Hs. apply demo_derived_ok.
Defined.

(** No worker: the only batch is empty, the assertion of [start_workers]
    fails. *)
Lemma train_raise_keeps_registries_witness :
  (train (demo_get_worker_config None) demo_env (demo_config 0)
     (Some demo_practitioners) (demo_world 3)).2 = Raise AssertionError ∧
  tasks (train (demo_get_worker_config None) demo_env (demo_config 0)
           (Some demo_practitioners) (demo_world 3)).1
    = tasks (demo_world 3) ∧
  task_results (train (demo_get_worker_config None) demo_env (demo_config 0)
                  (Some demo_practitioners) (demo_world 3)).1
    = task_results (demo_world 3).
Proof.
  split; [vm_compute; reflexivity|].
  apply (train_raise_keeps_registries (demo_get_worker_config None)
           (demo_world 3) _ demo_env (demo_config 0)
           (Some demo_practitioners) AssertionError).
  vm_compute. reflexivity.
Defined.

Lemma train_guard_failures_witness :
  train demo_no_context demo_env (demo_config 3) (Some demo_practitioners)
    empty_world
  = (after_events empty_world
       (prologue (demo_config 3) (Some demo_practitioners)), Raise KeyError) ∧
  train demo_no_context demo_env (demo_config 3) None empty_world
  = (after_events empty_world (prologue (Pid:=string) (demo_config 3) None),
     Raise KeyError).
Proof.
  split.
  - apply (proj1 (train_guard_failures demo_no_context empty_world demo_env
                    (demo_config 3) (Some demo_practitioners))).
    reflexivity.
  - apply (proj1 (train_guard_failures demo_no_context empty_world demo_env
                    (demo_config 3) None)).
    reflexivity.
Defined.

Lemma train_late_failures_witness :
  train (demo_get_worker_config None) demo_env (demo_config 0)
    (Some demo_practitioners) empty_world
  = (after_events empty_world
       (prologue (demo_config 0) (Some demo_practitioners)
          ++ run_events (FederatedLearningContext 0%nat)
               (demo_server_config None) []),
     Raise AssertionError).
Proof.
  apply (proj2 (train_late_failures (demo_get_worker_config None) empty_world
                  demo_env (demo_config 0) (Some demo_practitioners) 0%nat
                  (demo_server_config None) eq_refl eq_refl) [] []).
  - reflexivity.
  - constructor.
Defined.

Lemma train_invocations_witness :
  ∃ new,
    trace (train (demo_get_worker_config None) demo_env (demo_config 3)
             (Some demo_practitioners) empty_world).1
      = trace empty_world ++ new ∧
    concat (invocations <$> new) =
      (fn_start_server, inl (demo_server_config None))
      :: ((λ c, (fn_run_worker, inr c))
            <$> concat [replicate 3 demo_worker_config]).
Proof.
  apply (train_invocations (demo_get_worker_config None) empty_world demo_env
           (demo_config 3) (Some demo_practitioners) 0%nat
           (demo_server_config None) [replicate 3 demo_worker_config]).
  apply demo_derived_ok.
Defined.

Lemma demo_world_two_registered :
  tasks demo_world_two !! 1007 = Some (demo_task 3) ∧
  task_results demo_world_two !! 1007 = Some ∅ ∧
  tasks demo_world_two !! 2007 = Some (demo_task 3) ∧
  task_results demo_world_two !! 2007 = Some ∅.
Proof. split_and!; vm_compute; reflexivity. Qed.

(** Completing the task 1007 leaves the task 2007 where it is. *)
Lemma get_training_result_frame_witness :
  tasks (get_training_result String.le 1007 None [Some demo_fragment] false
           demo_world_two).1 !! 2007 = tasks demo_world_two !! 2007 ∧
  task_results
    (get_training_result String.le 1007 None [Some demo_fragment] false
       demo_world_two).1 !! 2007 = task_results demo_world_two !! 2007.
Proof.
  apply (get_training_result_frame String.le demo_world_two 1007 None
           [Some demo_fragment] false 2007).
  done.
Defined.

Lemma stats_keys_witness :
  dom demo_stats = dom (merged ∅ [Some demo_fragment; None; None; None]) ∧
  ∀ orig,
    merged ∅ [Some demo_fragment; None; None; None] !! "sv"
      = Some (Table orig) →
    ∃ sv, demo_stats !! "sv" = Some (Remapped sv) ∧ dom sv = dom orig.
Proof.
  destruct demo_world_registered as [Ht Hacc].
  apply (stats_keys String.le (demo_world 3)
           (get_training_result String.le 1007 None
              [Some demo_fragment; None; None; None] false (demo_world 3)).1
           1007 (demo_task 3) ∅ None
           [Some demo_fragment; None; None; None] demo_stats Ht Hacc).
  vm_compute. reflexivity.
Defined.

Lemma collector_pool_calls_witness :
  trace (get_training_result String.le 1007 (Some 0.5%float)
           [Some demo_fragment] true (demo_world 3)).1
    = trace (demo_world 3)
        ++ [WaitResults (process_pool (demo_task 3)) (Some 0.5%float)] ∧
  trace (get_training_result String.le 1007 (Some 0.5%float)
           [Some short_fragment] false (demo_world 3)).1
    = trace (demo_world 3)
        ++ [WaitResults (process_pool (demo_task 3)) (Some 0.5%float);
            Shutdown (process_pool (demo_task 3)) None].
Proof.
  destruct demo_world_registered as [Ht Hacc].
  split.
  - apply (proj1 (collector_pool_calls String.le (demo_world 3) 1007
                    (demo_task 3) ∅ (Some 0.5%float) [Some demo_fragment]
                    Ht Hacc)).
  - apply (proj2 (collector_pool_calls String.le (demo_world 3) 1007
                    (demo_task 3) ∅ (Some 0.5%float) [Some short_fragment]
                    Ht Hacc)).
Defined.

Lemma polls_compose_witness :
  (get_training_result String.le 1007 None [Some fragment_ab] false
     (get_training_result String.le 1007 None [Some fragment_a] true
        (demo_world 3)).1).2
  = (get_training_result String.le 1007 None
       ([Some fragment_a] ++ [Some fragment_ab]) false (demo_world 3)).2 ∧
  tasks
    (get_training_result String.le 1007 None [Some fragment_ab] false
       (get_training_result String.le 1007 None [Some fragment_a] true
          (demo_world 3)).1).1
  = tasks
      (get_training_result String.le 1007 None
         ([Some fragment_a] ++ [Some fragment_ab]) false (demo_world 3)).1 ∧
  task_results
    (get_training_result String.le 1007 None [Some fragment_ab] false
       (get_training_result String.le 1007 None [Some fragment_a] true
          (demo_world 3)).1).1
  = task_results
      (get_training_result String.le 1007 None
         ([Some fragment_a] ++ [Some fragment_ab]) false (demo_world 3)).1.
Proof.
  destruct demo_world_registered as [Ht Hacc].
  apply (polls_compose String.le (demo_world 3) 1007 (demo_task 3) ∅ None
           None [Some fragment_a] [Some fragment_ab] false Ht Hacc).
Defined.

Lemma completion_without_sv_witness :
  get_training_result String.le 1007 None [Some fragment_a; Some fragment_ab]
    false (demo_world 3) =
  ({| tasks := delete 1007 (tasks (demo_world 3));
      task_results := delete 1007 (task_results (demo_world 3));
      trace := trace (demo_world 3)
                 ++ [WaitResults (process_pool (demo_task 3)) None;
                     Shutdown (process_pool (demo_task 3)) None] |},
   Return (Some (Copied <$> merged ∅ [Some fragment_a; Some fragment_ab]))).
Proof.
  destruct demo_world_registered as [Ht Hacc].
  apply (completion_without_sv String.le (demo_world 3) 1007 (demo_task 3) ∅
           None [Some fragment_a; Some fragment_ab] Ht Hacc).
  vm_compute. reflexivity.
Defined.

Lemma server_performance_collected_witness :
  start_server (FederatedLearningContext 0%nat) (demo_server_config None)
    = Return performance_fragment ∧
  (get_training_result String.le 1007 None
     (replicate 2 None ++ Some performance_fragment :: replicate 1 None)
     false (demo_world 3)).2
  = Return (Some {["performance" := Copied (Scalar (PyFloat 0.9))]}).
Proof.
  destruct demo_world_registered as [Ht Hacc].
  assert (start_server (FederatedLearningContext 0%nat)
            (demo_server_config None) = Return performance_fragment) as Hs
    by (vm_compute; reflexivity).
  split; [exact Hs|].
  apply (server_performance_collected String.le (demo_world 3) 1007
           (demo_task 3) None (FederatedLearningContext 0%nat)
           (demo_server_config None)
           (λ _, Return (demo_server None (Scalar (PyFloat 0.9))))
           (demo_server None (Scalar (PyFloat 0.9)))
           {| algorithm := {| shapley_values := None |};
              performance_stat := Scalar (PyFloat 0.9) |}
           performance_fragment 2 1 Ht Hacc eq_refl eq_refl eq_refl eq_refl Hs).
Defined.




(** Three participants, three slots: p1, p2 and p3 read the slots 0, 1
    and 2 of every round. *)
Lemma remap_slot_assignment_witness :
  ∃ (slot : string → nat) sv,
    demo_stats !! "sv" = Some (Remapped sv) ∧
    (∀ round row, demo_sv !! round = Some row →
       ∃ row', sv !! round = Some row' ∧
         ∀ pid, row' !! pid =
           if decide (pid ∈ practitioner_ids (demo_task 3) ∧
                      Z.of_nat (slot pid) < worker_number (config (demo_task 3)))
           then row !! Z.of_nat (slot pid) else None) ∧
    (∀ pid q, pid ∈ practitioner_ids (demo_task 3) →
       q ∈ practitioner_ids (demo_task 3) →
       (slot pid < slot q)%nat ↔ strict String.le pid q) ∧
    (∀ i : nat,
       (i < size (practitioner_ids (demo_task 3)))%nat ↔
       ∃ pid, pid ∈ practitioner_ids (demo_task 3) ∧ slot pid = i).
Proof.
  destruct demo_world_registered as [Ht Hacc].
  apply (remap_slot_assignment String.le (demo_world 3)
           (get_training_result String.le 1007 None
              [Some demo_fragment; None; None; None] false (demo_world 3)).1
           1007 (demo_task 3) ∅ None
           [Some demo_fragment; None; None; None] demo_stats demo_sv Ht Hacc).
  - vm_compute. reflexivity.
  - vm_compute. reflexivity.
Defined.

Lemma train_then_collect_witness :
  ∃ w2 st,
    get_training_result String.le (uuid4_int demo_env + getpid demo_env) None
      [Some demo_fragment] false
      (train (demo_get_worker_config (Some (Table demo_sv))) demo_env
         (demo_config 3) (Some demo_practitioners) empty_world).1
      = (w2, Return (Some st)) ∧
    for_items
      (post_process String.le
         (list_to_set (practitioner_id <$> demo_practitioners))
         (worker_number (reset_session (demo_config 3))))
      (merged ∅ [Some demo_fragment]) = Return st ∧
    tasks w2 = tasks empty_world ∧ task_results w2 = task_results empty_world.
Proof.
  apply (train_then_collect String.le
           (demo_get_worker_config (Some (Table demo_sv))) empty_world
           demo_env (demo_config 3) demo_practitioners 0%nat
           (demo_server_config (Some (Table demo_sv)))
           [replicate 3 demo_worker_config] None [Some demo_fragment]).
  - split_and!; [reflexivity..|]. by repeat constructor.
  - reflexivity.
  - reflexivity.
  - intros v Hv.
    assert (Some v = Some (Table demo_sv)) as [= ->]
      by (rewrite <- Hv; vm_compute; reflexivity).
    eexists. split; [reflexivity|]. intros r row Hr. unfold demo_sv in Hr.
    apply lookup_singleton_Some in Hr as [<- <-].
    intros i Hi. vm_compute in Hi.
    destruct i as [|[|[|i]]]; [vm_compute; eauto..|lia].
Defined.

(** ** Failures of the server runner *)

Section ServerMore.

Context {V : Type}.

(** X18: [start_server] fails in exactly three ways, and then returns no
    fragment: [KeyError] when the server configuration has no
    ["constructor"], and otherwise whatever the constructor or the server's
    [start] raises, unchanged; the constructor is called with the context
    and [start] only on a server that was constructed. *)
Theorem start_server_failures (ctx : context) (sc : @ServerConfig V) e :
  start_server ctx sc = Raise e ↔
  (constructor sc = None ∧ e = KeyError) ∨
  (∃ ctor, constructor sc = Some ctor ∧ ctor ctx = Raise e) ∨
  (∃ ctor server,
     constructor sc = Some ctor ∧ ctor ctx = Return server ∧
     start server (server_state server) = Raise e).
Proof.
  unfold start_server.
  destruct (constructor sc) as [ctor|]; cbn.
  - destruct (ctor ctx) as [server|e1] eqn:Hc; cbn.
    + destruct (start server (server_state server)) as [st|e2] eqn:Hs; cbn.
      * split; [done|].
        intros [[? _]|[(c & [= <-] & ?)|(c & s & [= <-] & ? & ?)]];
          [done|congruence|]. simplify_eq. congruence.
      * split.
        -- intros [= ->]. right. right. by exists ctor, server.
        -- intros [[? _]|[(c & [= <-] & ?)|(c & s & [= <-] & ? & ?)]];
             [done|congruence|]. simplify_eq. congruence.
    + split.
      * intros [= ->]. right. left. by exists ctor.
      * intros [[? _]|[(c & [= <-] & ?)|(c & s & [= <-] & ? & ?)]];
          [done|congruence|congruence].
  - split.
    + intros [= <-]. by left.
    + intros [[_ ->]|[(c & ? & _)|(c & s & ? & _)]]; done.
Qed.

End ServerMore.

(** ** The optimizer utilities on a concrete optimizer *)

(** One group with a learning rate, a momentum and a key ["ram"], which is
    a substring of ["params"]: the learning rate and the momentum are
    reused, ["ram"] is not, and the parameters are those of the model. *)
Lemma reset_optimizer_parameters_spec_witness :
  model.reset_optimizer_parameters (λ m : Z, m) model.demo_add_param_group
    None (model.demo_trainer []) =
  (model.demo_trainer [], model.Raise model.AssertionError) ∧
  ∃ g,
    model.reset_optimizer_parameters (λ m : Z, m) model.demo_add_param_group
      None
      (model.demo_trainer
         [ {[ "params" := 3; "lr" := 7; "momentum" := 9; "ram" := 4 ]} ]) =
    ({| model.optimizer :=
          {| model.param_groups := [g]; model.state := ∅ |};
        model.model := 10 |}, model.Return tt) ∧
    g !! "lr" = Some 7 ∧ g !! "momentum" = Some 9 ∧
    g !! "ram" = None ∧ g !! "params" = Some 10.
Proof.
  destruct (reset_optimizer_parameters_spec (λ m : Z, m)
              model.demo_add_param_group (model.demo_trainer []) None)
    as [Hrefused _].
  split; [apply Hrefused; cbn; lia|].
  destruct (reset_optimizer_parameters_spec (λ m : Z, m)
              model.demo_add_param_group
              (model.demo_trainer
                 [ {[ "params" := 3; "lr" := 7; "momentum" := 9;
                      "ram" := 4 ]} ]) None)
    as [_ Hok].
  destruct (Hok {[ "params" := 3; "lr" := 7; "momentum" := 9; "ram" := 4 ]}
              ({["params" := 10]} ∪ {["lr" := 1]}) [] ∅ eq_refl eq_refl)
    as (g & Hg & Hreuse & Hfresh).
  exists g. split; [exact Hg|]. split_and!.
  - apply Hreuse; [vm_compute; reflexivity|].
    intros (pre & post & Hs). apply (f_equal (model.str_in "lr")) in Hs.
    rewrite (proj2 (str_in_spec "lr" (pre +:+ "lr" +:+ post))) in Hs
      by eauto.
    vm_compute in Hs. discriminate.
  - apply Hreuse; [vm_compute; reflexivity|].
    intros (pre & post & Hs). apply (f_equal (model.str_in "momentum")) in Hs.
    rewrite (proj2 (str_in_spec "momentum" (pre +:+ "momentum" +:+ post)))
      in Hs by eauto.
    vm_compute in Hs. discriminate.
  - rewrite Hfresh; [vm_compute; reflexivity|].
    right. by exists "pa", "s".
  - rewrite Hfresh; [vm_compute; reflexivity|].
    right. by exists "", "".
Defined.

Lemma load_parameters_reuse_witness :
  ∃ g,
    model.load_parameters (λ m : Z, m) model.demo_add_param_group
      model.demo_load model.demo_trainer_load model.demo_disable 5 true
      (model.demo_trainer [ {[ "params" := 3; "lr" := 7 ]} ])
    = ({| model.optimizer :=
            {| model.param_groups := [g]; model.state := ∅ |};
          model.model := -15 |}, model.Return tt) ∧
    g !! "lr" = Some 7 ∧ g !! "params" = Some 15.
Proof.
  destruct (load_parameters_reuse (λ m : Z, m) model.demo_add_param_group
              model.demo_load model.demo_trainer_load model.demo_disable
              (model.demo_trainer [ {[ "params" := 3; "lr" := 7 ]} ]) 5 15
              {[ "params" := 3; "lr" := 7 ]}
              ({["params" := 15]} ∪ {["lr" := 1]}) [] ∅
              eq_refl eq_refl eq_refl)
    as (g & Hg & Hreuse & Hfresh).
  exists g. split; [exact Hg|]. split.
  - apply Hreuse; [vm_compute; reflexivity|].
    intros (pre & post & Hs). apply (f_equal (model.str_in "lr")) in Hs.
    rewrite (proj2 (str_in_spec "lr" (pre +:+ "lr" +:+ post))) in Hs
      by eauto.
    vm_compute in Hs. discriminate.
  - rewrite Hfresh; [vm_compute; reflexivity|].
    right. by exists "", "".
Defined.

(** Two groups: the assertion fails once the parameters are loaded. *)
Lemma load_parameters_reuse_failures_witness :
  model.load_parameters (λ m : Z, m) model.demo_add_param_group
    model.demo_load model.demo_trainer_load model.demo_disable 5 true
    (model.demo_trainer [ {[ "lr" := 7 ]}; {[ "lr" := 8 ]} ])
  = ({| model.optimizer :=
          model.optimizer
            (model.demo_trainer [ {[ "lr" := 7 ]}; {[ "lr" := 8 ]} ]);
        model.model := 15 |}, model.Raise model.AssertionError).
Proof.
  apply (proj2 (load_parameters_reuse_failures (λ m : Z, m)
                  model.demo_add_param_group model.demo_load
                  model.demo_trainer_load model.demo_disable
                  (model.demo_trainer [ {[ "lr" := 7 ]}; {[ "lr" := 8 ]} ])
                  5 15)).
  - reflexivity.
  - cbn. lia.
Defined.
